(** * nequip-benchmark: the measurement pipeline of [nequip/scripts/benchmark.py]

    A shallow embedding of [main]: the frame sampler, the model preparer,
    the execution driver (warmup, tracing, timing) and the metrics reporter.

    The script is stateful.  It allocates Python objects (the frame
    dictionaries and the tensors they refer to), hands copies of them to an
    opaque model, writes and reads a temporary file and prints.  The
    embedding threads a [world] through an error monad: the object store,
    the temporary file and the trace of externally visible events. *)

From stdpp Require Import gmap strings list fin_maps.
From Stdlib Require Import Ascii Floats.

Set Warnings "-inexact-float".
#[local] Open Scope Z_scope.
#[local] Open Scope nat_scope.

(** ** Python values used by the script *)

(** The exceptions a run can end with.  [InvalidReference] is not a Python
    exception: it marks a location outside the store, which the driver
    never meets (see [invoke_run]). *)
Inductive exn :=
  | IndexError
  | KeyError (key : string)
  | StopIteration
  | ZeroDivisionError
  | ValueError
  | AssertionError
  | RuntimeError
  | NotImplementedError (msg : string)
  | InvalidReference.

Inductive result (A : Type) :=
  | Ok (a : A)
  | Raise (e : exn).
Arguments Ok {A} a.
Arguments Raise {A} e.

(** A tensor, as far as the script looks at it: the list of its rows.
    [len(t)] and [t.shape[0]] are the number of rows. *)
Abbreviation tensor := (list (list Z)) (only parsing).

(** [t.shape[1]] of a two-dimensional tensor: the length of a row. *)
Definition shape1 (t : tensor) : nat := length (default [] (head t)).

(** Python's [xs[:k]]: a negative bound counts from the end, and a bound
    outside the list is clamped, never an error.  On a tensor this holds
    for the bounds torch takes as an index: the script's bound is an
    unbounded [int], and at the far negative end of the 64-bit range
    torch 1.13 raises instead. *)
Definition slice_to {A} (k : Z) (xs : list A) : list A :=
  if (0 <=? k)%Z then take (Z.to_nat k) xs
  else take (Z.to_nat (Z.of_nat (length xs) + k)) xs.

(** A location of the object store. *)
Abbreviation loc := nat (only parsing).

Abbreviation device := string (only parsing).

(** [torch.device(s).type]: the part of the name before the index. *)
Fixpoint device_type (s : string) : string :=
  match s with
  | EmptyString => EmptyString
  | String c rest => if Ascii.eqb c ":"%char then EmptyString else String c (device_type rest)
  end.

(** The model is opaque.  What the script does to it is recorded as the
    chain of transforms applied to the freshly built model. *)
Inductive model_form :=
  | FromConfig
  | OnDevice (m : model_form) (d : device)
  | Scripted (m : model_form)
  | Deployed (m : model_form)
  | Frozen (m : model_form)
  | Loaded (m : model_form) (d : device).

(** ** Events *)

Inductive message :=
  | MsgUsingDevice (d : device)
  | MsgLoadingDataset
  | MsgDatasetTime
  | MsgLoaded (size : nat) (n_data : Z)
  | MsgFrameStatistics
  | MsgNumAtoms (n_atom : nat)
  | MsgNumTypes
  | MsgAvgNumEdges (total frames : nat)
  | MsgAvgNeighPerAtom (total bins : nat)
  | MsgQuitting
  | MsgBuildingModel
  | MsgModelTime
  | MsgWeights
  | MsgTrainableWeights
  | MsgCompile
  | MsgCompileTime
  | MsgWroteTrace (path : string)
  | MsgStarting
  | MsgWarmup
  | MsgWarmupTime (warmup : Z)
  | MsgResults
  | MsgAverageCall (trim_time : float)
  | MsgLinearScaling
  | MsgPerAtom (per_atom_time : float)
  | MsgNsDay (timestep ns_day : float).

Inductive ProfilerActivity := CPU | CUDA.

(** One execution of the statement [model(next(datas).copy())]. *)
Record call := Call {
  c_model : model_form;          (* the callable *)
  c_frame : loc;                 (* the pool object [next(datas)] returned *)
  c_arg : loc;                   (* its [.copy()], the object the model gets *)
  c_seen : gmap string tensor    (* the contents the model reads through it *)
}.

Inductive event :=
  | Printed (m : message)
  | LoggingSetup (level : string)
  | ConfigFromFile (path : string)
  | SetGlobalOptions
  | CheckCodeVersion
  | DatasetFromConfig
  | ModelFromConfig
  | ModelEval
  | ModelTo (d : device)
  | Script
  | CompileForDeploy
  | JitSave
  | JitLoad (d : device)
  | JitFreeze
  | ModelCall (c : call)
  | ProfilerSchedule (wait warmup active repeat : Z)
  | ProfilerEnter (activities : list ProfilerActivity)
  | ProfilerStep
  | ProfilerExit
  | ExportChromeTrace (path : string)
  | TimerTimeit (number : Z)
  | TimerDone.

(** ** The world *)

(** Dictionaries map field names to tensor objects; tensors are shared by
    reference.  Objects are allocated at the end of the store, so a
    location is the index of its object.  [cursor] is the state of the
    [itertools.cycle] iterator, [step_num] that of the profiler, and
    [tmpfile] is the named temporary file: absent, or present with the
    model last saved into it. *)
Record world := World {
  dicts : list (gmap string loc);
  tensors : list tensor;
  cursor : nat;
  step_num : Z;
  tmpfile : option (option model_form);
  log : list event
}.

Definition set_dicts (f : list (gmap string loc) → list (gmap string loc)) (w : world) : world :=
  World (f (dicts w)) (tensors w) (cursor w) (step_num w) (tmpfile w) (log w).
Definition set_tensors (f : list tensor → list tensor) (w : world) : world :=
  World (dicts w) (f (tensors w)) (cursor w) (step_num w) (tmpfile w) (log w).
Definition set_cursor (c : nat) (w : world) : world :=
  World (dicts w) (tensors w) c (step_num w) (tmpfile w) (log w).
Definition set_step_num (s : Z) (w : world) : world :=
  World (dicts w) (tensors w) (cursor w) s (tmpfile w) (log w).
Definition set_tmpfile (f : option (option model_form)) (w : world) : world :=
  World (dicts w) (tensors w) (cursor w) (step_num w) f (log w).
Definition add_log (e : event) (w : world) : world :=
  World (dicts w) (tensors w) (cursor w) (step_num w) (tmpfile w) (log w ++ [e]).

Definition empty_world : world := World [] [] 0 0 None [].

(** ** The monad: state and exceptions *)

Definition M (A : Type) : Type := world → result A * world.

#[global] Instance M_ret : MRet M := λ A a w, (Ok a, w).
#[global] Instance M_bind : MBind M := λ A B k c w,
  match c w with
  | (Ok a, w') => k a w'
  | (Raise e, w') => (Raise e, w')
  end.

Definition raise {A} (e : exn) : M A := λ w, (Raise e, w).
Definition emit (e : event) : M unit := λ w, (Ok tt, add_log e w).
Definition print (m : message) : M unit := emit (Printed m).
Definition lift {A} (r : result A) : M A := λ w, (r, w).
Definition gets {A} (f : world → A) : M A := λ w, (Ok (f w), w).
Definition modify (f : world → world) : M unit := λ w, (Ok tt, f w).

(** [try: c finally: cleanup], which is what leaving a [with] block does. *)
Definition finally {A} (c : M A) (cleanup : M unit) : M A := λ w,
  match c w with
  | (Ok a, w') =>
      match cleanup w' with
      | (Ok _, w'') => (Ok a, w'')
      | (Raise e, w'') => (Raise e, w'')
      end
  | (Raise e, w') =>
      match cleanup w' with
      | (Ok _, w'') => (Raise e, w'')
      | (Raise e', w'') => (Raise e', w'')
      end
  end.

(** [for _ in range(k): body] *)
Fixpoint for_range (k : nat) (body : M unit) : M unit :=
  match k with
  | 0 => mret tt
  | S k' => body;; for_range k' body
  end.

Definition for_in_range (k : Z) (body : M unit) : M unit :=
  for_range (Z.to_nat k) body.

(** ** Objects *)

Definition new_tensor (t : tensor) : M loc := λ w,
  (Ok (length (tensors w)), set_tensors (λ ts, ts ++ [t]) w).

Definition new_dict (d : gmap string loc) : M loc := λ w,
  (Ok (length (dicts w)), set_dicts (λ ds, ds ++ [d]) w).

Definition get_dict (l : loc) : M (gmap string loc) := λ w,
  match dicts w !! l with
  | Some d => (Ok d, w)
  | None => (Raise InvalidReference, w)
  end.

Definition get_tensor (a : loc) : M tensor := λ w,
  match tensors w !! a with
  | Some t => (Ok t, w)
  | None => (Raise InvalidReference, w)
  end.

(** [d[k]] *)
Definition dict_getitem (l : loc) (k : string) : M loc :=
  d ← get_dict l;
  match d !! k with
  | Some a => mret a
  | None => raise (KeyError k)
  end.

(** [d.copy()]: a new dictionary object with the same bindings.  The
    tensors it refers to are not copied. *)
Definition dict_copy (l : loc) : M loc :=
  d ← get_dict l;
  new_dict d.

(** What can be read through a dictionary: each field with the current
    contents of its tensor. *)
Definition view_of (w : world) (d : gmap string loc) : gmap string tensor :=
  omap (λ a, tensors w !! a) d.

Definition view (l : loc) : M (gmap string tensor) := λ w,
  match dicts w !! l with
  | Some d => (Ok (view_of w d), w)
  | None => (Raise InvalidReference, w)
  end.

(** ** Frames of the dataset *)

(** Modelled from the spec: the key constants of [nequip.data.AtomicDataDict]
    are not part of this file.  [POSITIONS_KEY] names the atom positions,
    the field line 101 reads as ["pos"]; [EDGE_INDEX_KEY] names the
    connectivity edge list. *)
Definition POSITIONS_KEY : string := "pos".
Definition EDGE_INDEX_KEY : string := "edge_index".

(** Modelled from the spec: the frame type [AtomicData] of [nequip.data] is
    not part of this file.  A frame is a mapping from named fields to
    tensors which always has the atom positions and the edge list. *)
Record AtomicData := {
  ad_pos : tensor;
  ad_edge_index : tensor;
  ad_fields : gmap string tensor
}.

Definition frame_fields (f : AtomicData) : gmap string tensor :=
  <[POSITIONS_KEY := ad_pos f]> (<[EDGE_INDEX_KEY := ad_edge_index f]> (ad_fields f)).

Fixpoint alloc_fields (kts : list (string * tensor)) : M (gmap string loc) :=
  match kts with
  | [] => mret ∅
  | (k, t) :: rest =>
      a ← new_tensor t;
      d ← alloc_fields rest;
      mret (<[k := a]> d)
  end.

(** [AtomicData.to_AtomicDataDict(frame.to(device))]: a new dictionary of
    new tensor objects. *)
Definition to_AtomicDataDict (f : AtomicData) : M loc :=
  d ← alloc_fields (map_to_list (frame_fields f));
  new_dict d.

(** [dataset[i]] *)
Definition dataset_getitem (dataset : list AtomicData) (i : nat) : M AtomicData :=
  match dataset !! i with
  | Some f => mret f
  | None => raise IndexError
  end.

(** One element of the comprehension of line 98. *)
Definition load_frame (dataset : list AtomicData) (i : nat) : M loc :=
  f ← dataset_getitem dataset i;
  to_AtomicDataDict f.

(** [config[key]] and [config.get(key, default)] *)
Definition config_getitem (config : gmap string Z) (key : string) : M Z :=
  match config !! key with
  | Some v => mret v
  | None => raise (KeyError key)
  end.

Definition config_get (config : gmap string Z) (key : string) (dflt : Z) : Z :=
  default dflt (config !! key).

(** ** Command line *)

Record Args := {
  arg_config : string;
  arg_profile : option string;
  arg_device : option string;
  arg_n : Z;
  arg_n_data : Z;
  arg_timestep : float;
  arg_no_compile : bool;
  arg_verbose : string
}.

(** Lines 78-81. *)
Definition select_device (cuda_is_available : bool) (args : Args) : device :=
  match arg_device args with
  | None => if cuda_is_available then "cuda" else "cpu"
  | Some d => d
  end.

(** The parser's defaults. *)
Definition default_args (config : string) : Args :=
  {| arg_config := config; arg_profile := None; arg_device := None;
     arg_n := 30; arg_n_data := 1; arg_timestep := 1%float;
     arg_no_compile := false; arg_verbose := "error" |}.

(** ** The model's side effects on its argument *)

(** What a model can do to the dictionary it is given: bind a field to a
    new tensor (a scratch buffer, an output), drop a field, or write into
    the tensor a field refers to. *)
Inductive mutation :=
  | SetItem (k : string) (t : tensor)
  | DelItem (k : string)
  | WriteInto (k : string) (t : tensor).

Definition dict_update (c : loc) (f : gmap string loc → gmap string loc) : M unit :=
  modify (set_dicts (alter f c)).

Definition tensor_write (a : loc) (t : tensor) : M unit :=
  modify (set_tensors (λ ts, <[a := t]> ts)).

Definition exec_mutation (c : loc) (mu : mutation) : M unit :=
  match mu with
  | SetItem k t => a ← new_tensor t; dict_update c (λ d, <[k := a]> d)
  | DelItem k => dict_update c (λ d, delete k d)
  | WriteInto k t =>
      d ← get_dict c;
      match d !! k with
      | Some a => tensor_write a t
      | None => mret tt
      end
  end.

Fixpoint exec_mutations (c : loc) (mus : list mutation) : M unit :=
  match mus with
  | [] => mret tt
  | mu :: rest => exec_mutation c mu;; exec_mutations c rest
  end.

(** ** torch.profiler, as far as the driver relies on it *)

Inductive ProfilerAction := NONE | WARMUP | RECORD | RECORD_AND_SAVE.

(** The action of the schedule at a step ([skip_first] is 0).  The
    comparison [step / num_steps >= repeat] is written without the
    division. *)
Definition schedule_fn (wait warmup active repeat : Z) (step : Z) : ProfilerAction :=
  let num_steps := (wait + warmup + active)%Z in
  if ((0 <? repeat) && (repeat * num_steps <=? step))%Z then NONE
  else
    let mod_step := (step mod num_steps)%Z in
    if (mod_step <? wait)%Z then NONE
    else if (mod_step <? wait + warmup)%Z then WARMUP
    else if (mod_step <? num_steps - 1)%Z then RECORD
    else RECORD_AND_SAVE.

(** [torch.profiler.schedule(...)] checks its arguments. *)
Definition schedule (wait warmup active repeat : Z) : M (Z → ProfilerAction) :=
  if bool_decide (0 ≤ wait ∧ 0 ≤ warmup ∧ 0 < active ∧ 0 ≤ repeat)%Z
  then emit (ProfilerSchedule wait warmup active repeat);;
       mret (schedule_fn wait warmup active repeat)
  else raise AssertionError.

(** Whether the move from action [prev] to [cur] hands the trace to
    [on_trace_ready]; [cur = None] is leaving the session. *)
Definition trace_ready_fires (prev : ProfilerAction) (cur : option ProfilerAction) : bool :=
  match prev, cur with
  | RECORD_AND_SAVE, _ => true
  | RECORD, None => true
  | _, _ => false
  end.

Definition transit_action (on_trace_ready : M unit) (prev : ProfilerAction)
    (cur : option ProfilerAction) : M unit :=
  if trace_ready_fires prev cur then on_trace_ready else mret tt.

Definition profile_enter (sched : Z → ProfilerAction) (on_trace_ready : M unit)
    (activities : list ProfilerActivity) : M unit :=
  emit (ProfilerEnter activities);;
  modify (set_step_num 0);;
  transit_action on_trace_ready NONE (Some (sched 0%Z)).

(** [p.step()] *)
Definition profile_step (sched : Z → ProfilerAction) (on_trace_ready : M unit) : M unit :=
  emit ProfilerStep;;
  s ← gets step_num;
  modify (set_step_num (s + 1));;
  transit_action on_trace_ready (sched s) (Some (sched (s + 1)%Z)).

Definition profile_exit (sched : Z → ProfilerAction) (on_trace_ready : M unit) : M unit :=
  s ← gets step_num;
  transit_action on_trace_ready (sched s) None;;
  emit ProfilerExit.

(** ** The temporary file and torch.jit *)

Definition with_tempfile {A} (body : M A) : M A :=
  modify (set_tmpfile (Some None));;
  finally body (modify (set_tmpfile None)).

Definition script (m : model_form) : M model_form :=
  emit Script;; mret (Scripted m).

Definition _compile_for_deploy (m : model_form) : M model_form :=
  emit CompileForDeploy;; mret (Deployed m).

Definition jit_save (m : model_form) : M unit :=
  emit JitSave;;
  modify (set_tmpfile (Some (Some m))).

Definition jit_load (map_location : device) : M model_form :=
  emit (JitLoad map_location);;
  f ← gets tmpfile;
  match f with
  | Some (Some m) => mret (Loaded m map_location)
  | _ => raise RuntimeError
  end.

Definition jit_freeze (m : model_form) : M model_form :=
  emit JitFreeze;; mret (Frozen m).

(** ** The metrics *)

(** Python's floats are binary64 numbers: every operation rounds to the
    nearest, a division by zero raises, an overflow gives an infinity. *)

(** [float(n)] for an [int] below [2^63], as [len] returns them. *)
Definition float_of_nat (n : nat) : float :=
  PrimFloat.of_uint63 (Uint63.of_Z (Z.of_nat n)).

(** Line 225: [trim_time / n_atom], with [n_atom] an [int]. *)
Definition per_atom_time (trim_time : float) (n_atom : nat) : result float :=
  if bool_decide (n_atom = 0) then Raise ZeroDivisionError
  else Ok (trim_time / float_of_nat n_atom)%float.

(** Line 230: [(86400.0 / trim_time) * args.timestep * 1e-6]. *)
Definition ns_day (trim_time timestep : float) : result float :=
  if (trim_time =? 0)%float then Raise ZeroDivisionError
  else Ok ((86400 / trim_time) * timestep * 1e-6)%float.

(** [torch.bincount(xs, minlength=m)] *)
Definition bincount (xs : list Z) (minlength : nat) : result (list nat) :=
  if forallb (λ x, (0 <=? x)%Z) xs then
    let size := max minlength (foldr (λ x acc, max (S (Z.to_nat x)) acc) 0 xs) in
    Ok (map (λ b, length (filter (λ x, x = Z.of_nat b) xs)) (seq 0 size))
  else Raise RuntimeError.

(** ** The script *)

Section Benchmark.

(** What the run takes from its environment: whether CUDA is there, the
    permutation [torch.randperm(n, generator=g)] draws from a generator
    seeded with [seed], what the model does to its argument, how many
    times [Timer.timeit(number)] runs its statement, what line 216 makes
    of the measurement ([trim_sigfig(perloop.times[0], ...)]: the time,
    or the exception raised there), and whether torch's [select_unit]
    finds a unit for a time or raises. *)
Variable cuda_is_available : bool.
Variable randperm : Z → nat → list nat.
Variable model : model_form → gmap string tensor → list mutation.
Variable timeit_runs : Z → nat.
Variable timer_reading : result float.
Variable select_unit : float → result unit.

(** *** Frame sampler (lines 95-105) *)

Definition dataset_seed (config : gmap string Z) : Z :=
  config_get config "dataset_seed" (config_get config "seed" 12345).

Definition sampled_indices (config : gmap string Z) (size : nat) (n_data : Z) : list nat :=
  slice_to n_data (randperm (dataset_seed config) size).

(** [len(d["pos"])] *)
Definition atom_count (d : loc) : M nat :=
  a ← dict_getitem d "pos";
  t ← get_tensor a;
  mret (length t).

(** [all(len(d["pos"]) == n_atom for d in datas)], which stops at the
    first frame that differs. *)
Fixpoint all_atom_counts (n_atom : nat) (datas : list loc) : M bool :=
  match datas with
  | [] => mret true
  | d :: rest =>
      c ← atom_count d;
      if bool_decide (c = n_atom) then all_atom_counts n_atom rest else mret false
  end.

Definition variable_atoms_msg : string :=
  "nequip-benchmark does not currently handle benchmarking on data frames with variable number of atoms".

Definition frame_sampler (args : Args) (config : gmap string Z)
    (dataset : list AtomicData) : M (list loc * nat) :=
  datas ← mapM (load_frame dataset)
               (sampled_indices config (length dataset) (arg_n_data args));
  n_atom ← match datas with
           | d0 :: _ => atom_count d0
           | [] => raise IndexError
           end;
  uniform ← all_atom_counts n_atom datas;
  if uniform : bool then mret (datas, n_atom)
  else raise (NotImplementedError variable_atoms_msg).

(** *** Dataset diagnostics (lines 106-127) *)

Definition num_edges (d : loc) : M nat :=
  a ← dict_getitem d EDGE_INDEX_KEY;
  t ← get_tensor a;
  mret (shape1 t).

Definition neighbor_counts (d : loc) : M (list nat) :=
  a ← dict_getitem d EDGE_INDEX_KEY;
  t ← get_tensor a;
  row ← match t with
        | r :: _ => mret r
        | [] => raise IndexError
        end;
  p ← dict_getitem d POSITIONS_KEY;
  pos ← get_tensor p;
  lift (bincount row (length pos)).

Definition report_statistics (args : Args) (dataset : list AtomicData)
    (datas : list loc) (n_atom : nat) : M unit :=
  print (MsgLoaded (length dataset) (arg_n_data args));;
  print MsgFrameStatistics;;
  print (MsgNumAtoms n_atom);;
  print MsgNumTypes;;
  edges ← mapM num_edges datas;
  print (MsgAvgNumEdges (sum_list edges) (length datas));;
  counts ← mapM neighbor_counts datas;
  print (MsgAvgNeighPerAtom (sum_list (concat counts)) (length (concat counts))).

(** Lines 74-130: everything up to the cyclic pool.  [config] and
    [dataset] are what [Config.from_file] and [dataset_from_config]
    return; [itertools.cycle(datas)] is the pool with the cursor at its
    first frame. *)
Definition load_and_sample (args : Args) (config : gmap string Z)
    (dataset : list AtomicData) : M (device * list loc * nat) :=
  emit (LoggingSetup (arg_verbose args));;
  let device := select_device cuda_is_available args in
  print (MsgUsingDevice device);;
  emit (ConfigFromFile (arg_config args));;
  emit SetGlobalOptions;;
  emit CheckCodeVersion;;
  print MsgLoadingDataset;;
  emit DatasetFromConfig;;
  print MsgDatasetTime;;
  '(datas, n_atom) ← frame_sampler args config dataset;
  report_statistics args dataset datas n_atom;;
  modify (set_cursor 0);;
  mret (device, datas, n_atom).

(** *** Model preparer (lines 137-171) *)

Definition model_preparer (args : Args) (device : device) : M model_form :=
  print MsgBuildingModel;;
  emit ModelFromConfig;;
  print MsgModelTime;;
  print MsgWeights;;
  print MsgTrainableWeights;;
  emit ModelEval;;
  if arg_no_compile args then
    emit (ModelTo device);;
    mret (OnDevice FromConfig device)
  else
    print MsgCompile;;
    m ← script FromConfig;
    m ← _compile_for_deploy m;
    print MsgCompileTime;;
    with_tempfile (
      jit_save m;;
      m ← jit_load device;
      m ← jit_freeze m;
      jit_save m;;
      jit_load device).

Definition warmup_depth (config : gmap string Z) : M Z :=
  depth ← config_getitem config "_jit_bailout_depth";
  mret (depth + 4)%Z.

(** *** Execution driver (lines 173-206) *)

(** [next(datas)] on the cyclic iterator *)
Definition cycle_next (datas : list loc) : M loc :=
  pos ← gets cursor;
  match datas !! (pos mod length datas) with
  | Some d => modify (set_cursor (S pos));; mret d
  | None => raise StopIteration
  end.

Definition call_model (m : model_form) (frame c : loc) : M unit :=
  seen ← view c;
  emit (ModelCall (Call m frame c seen));;
  exec_mutations c (model m seen).

(** The statement [model(next(datas).copy())]. *)
Definition invoke (m : model_form) (datas : list loc) : M unit :=
  frame ← cycle_next datas;
  c ← dict_copy frame;
  call_model m frame c.

Definition trace_handler (path : string) : M unit :=
  emit (ExportChromeTrace path);;
  print (MsgWroteTrace path).

Definition tracing (path : string) (device : device) (warmup n : Z)
    (m : model_form) (datas : list loc) : M unit :=
  print MsgStarting;;
  sched ← schedule 1 warmup n 1;
  profile_enter sched (trace_handler path)
    ([CPU] ++ (if bool_decide (device_type device = "cuda") then [CUDA] else []));;
  finally
    (for_in_range (1 + warmup + n)
       (invoke m datas;; profile_step sched (trace_handler path)))
    (profile_exit sched (trace_handler path)).

(** [Timer(stmt, globals).timeit(number)]; the measurement stays with
    the timer until line 216 reads it. *)
Definition timer_timeit (number : Z) (stmt : M unit) : M unit :=
  emit (TimerTimeit number);;
  for_range (timeit_runs number) stmt;;
  emit TimerDone.

(** *** Metrics reporter (lines 208-234) *)

Definition metrics_reporter (args : Args) (n_atom : nat) : M unit :=
  print MsgResults;;
  trim_time ← lift timer_reading;
  lift (select_unit trim_time);;
  print (MsgAverageCall trim_time);;
  print MsgLinearScaling;;
  per_atom ← lift (per_atom_time trim_time n_atom);
  lift (select_unit per_atom);;
  print (MsgPerAtom per_atom);;
  nsd ← lift (ns_day trim_time (arg_timestep args));
  print (MsgNsDay (arg_timestep args) nsd).

Definition timing (args : Args) (warmup : Z) (n_atom : nat)
    (m : model_form) (datas : list loc) : M unit :=
  print MsgWarmup;;
  for_in_range warmup (invoke m datas);;
  print (MsgWarmupTime warmup);;
  print MsgStarting;;
  timer_timeit (arg_n args) (invoke m datas);;
  metrics_reporter args n_atom.

(** *** main *)

Definition main (args : Args) (config : gmap string Z) (dataset : list AtomicData) : M unit :=
  '(device, datas, n_atom) ← load_and_sample args config dataset;
  if bool_decide (arg_n args = 0%Z) then print MsgQuitting
  else
    m ← model_preparer args device;
    warmup ← warmup_depth config;
    match arg_profile args with
    | Some path => tracing path device warmup (arg_n args) m datas
    | None => timing args warmup n_atom m datas
    end.

End Benchmark.

(** ** A small concrete setting, used to run the definitions *)

Definition frame2 (x : Z) : AtomicData :=
  {| ad_pos := [[x; 0; 0]; [x + 1; 0; 0]]%Z;
     ad_edge_index := [[0; 1]; [1; 0]]%Z;
     ad_fields := {[ "atom_types" := [[0]; [1]]%Z ]} |}.

Definition frame3 : AtomicData :=
  {| ad_pos := [[0; 0; 0]; [1; 0; 0]; [2; 0; 0]]%Z;
     ad_edge_index := [[0; 1; 1; 2]; [1; 0; 2; 1]]%Z;
     ad_fields := ∅ |}.

Definition uniform_dataset : list AtomicData := [frame2 0; frame2 10].
Definition mixed_dataset : list AtomicData := [frame2 0; frame3].

(** A generator that draws the identity for even seeds and the reversal
    for odd ones. *)
Definition flip_randperm (seed : Z) (n : nat) : list nat :=
  if Z.even seed then seq 0 n else reverse (seq 0 n).

(** A model that writes a scratch buffer into its argument and drops a
    field, and one that writes into the position tensor in place. *)
Definition scratch_model (m : model_form) (seen : gmap string tensor) : list mutation :=
  [SetItem "forces" [[0; 0; 0]]%Z; DelItem "atom_types"].

Definition inplace_model (m : model_form) (seen : gmap string tensor) : list mutation :=
  [WriteInto "pos" [[7; 7; 7]; [7; 7; 7]]%Z].

Definition example_config : gmap string Z :=
  {[ "_jit_bailout_depth" := 2%Z; "seed" := 7%Z ]}.

Definition example_args : Args :=
  {| arg_config := "config.yaml"; arg_profile := None; arg_device := Some "cpu";
     arg_n := 3; arg_n_data := 2; arg_timestep := 1%float;
     arg_no_compile := false; arg_verbose := "error" |}.

Definition with_n_data (k : Z) (a : Args) : Args :=
  {| arg_config := arg_config a; arg_profile := arg_profile a; arg_device := arg_device a;
     arg_n := arg_n a; arg_n_data := k; arg_timestep := arg_timestep a;
     arg_no_compile := arg_no_compile a; arg_verbose := arg_verbose a |}.

Definition with_n (k : Z) (a : Args) : Args :=
  {| arg_config := arg_config a; arg_profile := arg_profile a; arg_device := arg_device a;
     arg_n := k; arg_n_data := arg_n_data a; arg_timestep := arg_timestep a;
     arg_no_compile := arg_no_compile a; arg_verbose := arg_verbose a |}.

Definition with_profile (p : option string) (a : Args) : Args :=
  {| arg_config := arg_config a; arg_profile := p; arg_device := arg_device a;
     arg_n := arg_n a; arg_n_data := arg_n_data a; arg_timestep := arg_timestep a;
     arg_no_compile := arg_no_compile a; arg_verbose := arg_verbose a |}.

(** A timer that runs its statement [number] times after two runs of its
    own. *)
Definition example_timeit_runs (number : Z) : nat := 2 + Z.to_nat number.

(** A measurement that reads one second, and a unit for every positive
    time. *)
Definition example_reading : result float := Ok 1%float.

Definition example_select_unit (t : float) : result unit :=
  if (0 <? t)%float then Ok tt else Raise ValueError.

Definition example_main (model : model_form → gmap string tensor → list mutation) :=
  main false flip_randperm model example_timeit_runs example_reading example_select_unit.

Definition example_sampled (args : Args) (dataset : list AtomicData) :=
  load_and_sample false flip_randperm args example_config dataset empty_world.

Definition tracing_args : Args :=
  with_profile (Some "trace.json") (with_n_data 1 example_args).

Definition other_config : gmap string Z :=
  {[ "dataset_seed" := 7%Z; "seed" := 1%Z ]}.

Definition with_no_compile (b : bool) (a : Args) : Args :=
  {| arg_config := arg_config a; arg_profile := arg_profile a; arg_device := arg_device a;
     arg_n := arg_n a; arg_n_data := arg_n_data a; arg_timestep := arg_timestep a;
     arg_no_compile := b; arg_verbose := arg_verbose a |}.

Definition eager_args : Args := with_no_compile true example_args.

(** A configuration without the bailout depth. *)
Definition bare_config : gmap string Z := {[ "seed" := 7%Z ]}.

(** ** Vocabulary for stating what a run does *)

(** The dictionary at [d] holds frame [f]: its fields refer to allocated
    tensors whose contents are those of [f]. *)
Definition frame_at (w : world) (d : loc) (f : AtomicData) : Prop :=
  ∃ dd, dicts w !! d = Some dd
      ∧ (∀ k a, dd !! k = Some a → a < length (tensors w))
      ∧ view_of w dd = frame_fields f.

(** [w'] is [w] with more objects and nothing else changed. *)
Definition grows (w w' : world) : Prop :=
  dicts w `prefix_of` dicts w' ∧ tensors w `prefix_of` tensors w'
  ∧ cursor w' = cursor w ∧ step_num w' = step_num w
  ∧ tmpfile w' = tmpfile w ∧ log w' = log w.

Definition uniform_atoms (n_atom : nat) (frames : list AtomicData) : bool :=
  forallb (λ f, bool_decide (length (ad_pos f) = n_atom)) frames.

(** What the sampler answers for the frames at the sampled indices. *)
Definition sampler_verdict (datas : list loc) (frames : list AtomicData)
    : result (list loc * nat) :=
  match frames with
  | [] => Raise IndexError
  | f0 :: _ =>
      if uniform_atoms (length (ad_pos f0)) frames
      then Ok (datas, length (ad_pos f0))
      else Raise (NotImplementedError variable_atoms_msg)
  end.

(** The contents of the sampled frames, as a later reader sees them. *)
Definition sampler_outcome (r : result (list loc * nat) * world)
    : result (list (option (gmap string tensor)) * nat) :=
  match r with
  | (Ok (datas, n_atom), w') =>
      Ok ((λ d, view_of w' <$> dicts w' !! d) <$> datas, n_atom)
  | (Raise e, _) => Raise e
  end.

(** The model calls of a trace, in order. *)
Definition calls (evs : list event) : list call :=
  omap (λ e, match e with ModelCall c => Some c | _ => None end) evs.

(** A trace with the payload of the calls blanked. *)
Definition blank_call : call := Call FromConfig 0 0 ∅.

Definition erase (e : event) : event :=
  match e with
  | ModelCall _ => ModelCall blank_call
  | _ => e
  end.

(** Events of the start of a run: the dataset is loaded and described,
    nothing is built, run or measured. *)
Definition is_diagnostic (e : event) : bool :=
  match e with
  | LoggingSetup _ | ConfigFromFile _ | SetGlobalOptions | CheckCodeVersion
  | DatasetFromConfig => true
  | Printed (MsgUsingDevice _) | Printed MsgLoadingDataset | Printed MsgDatasetTime
  | Printed (MsgLoaded _ _) | Printed MsgFrameStatistics | Printed (MsgNumAtoms _)
  | Printed MsgNumTypes | Printed (MsgAvgNumEdges _ _) | Printed (MsgAvgNeighPerAtom _ _)
  | Printed MsgQuitting => true
  | _ => false
  end.

(** Mutations of the mapping itself, as opposed to writes into a tensor. *)
Definition mapping_level (mu : mutation) : bool :=
  match mu with
  | WriteInto _ _ => false
  | _ => true
  end.

(** The pool right after sampling: a non-empty list of allocated frames. *)
Definition pool_ok (w : world) (datas : list loc) : Prop :=
  datas ≠ [] ∧ Forall (λ d, ∃ f, frame_at w d f) datas.

(** The trace of lines 74-94. *)
Definition startup_events (cuda_is_available : bool) (args : Args) : list event :=
  [LoggingSetup (arg_verbose args);
   Printed (MsgUsingDevice (select_device cuda_is_available args));
   ConfigFromFile (arg_config args); SetGlobalOptions; CheckCodeVersion;
   Printed MsgLoadingDataset; DatasetFromConfig; Printed MsgDatasetTime].

(** What the model preparer prints and does, and the model it returns. *)
Definition preparer_events (args : Args) (device : device) : list event :=
  [Printed MsgBuildingModel; ModelFromConfig; Printed MsgModelTime; Printed MsgWeights;
   Printed MsgTrainableWeights; ModelEval]
  ++ (if arg_no_compile args then [ModelTo device]
      else [Printed MsgCompile; Script; CompileForDeploy; Printed MsgCompileTime;
            JitSave; JitLoad device; JitFreeze; JitSave; JitLoad device]).

Definition prepared_model (args : Args) (device : device) : model_form :=
  if arg_no_compile args then OnDevice FromConfig device
  else Loaded (Frozen (Loaded (Deployed (Scripted FromConfig)) device)) device.

(** What the metrics reporter prints for a reading, and how it ends: the
    lines up to the first step that raises, and that exception. *)
Definition metrics_events (timer_reading : result float) (select_unit : float → result unit)
    (args : Args) (n_atom : nat) : list event :=
  Printed MsgResults
  :: match timer_reading with
     | Ok t =>
         match select_unit t with
         | Ok _ =>
             [Printed (MsgAverageCall t); Printed MsgLinearScaling]
             ++ match per_atom_time t n_atom with
                | Ok p =>
                    match select_unit p with
                    | Ok _ =>
                        Printed (MsgPerAtom p)
                        :: match ns_day t (arg_timestep args) with
                           | Ok d => [Printed (MsgNsDay (arg_timestep args) d)]
                           | Raise _ => []
                           end
                    | Raise _ => []
                    end
                | Raise _ => []
                end
         | Raise _ => []
         end
     | Raise _ => []
     end.

Definition metrics_result (timer_reading : result float) (select_unit : float → result unit)
    (args : Args) (n_atom : nat) : result unit :=
  match timer_reading with
  | Ok t =>
      match select_unit t with
      | Ok _ =>
          match per_atom_time t n_atom with
          | Ok p =>
              match select_unit p with
              | Ok _ =>
                  match ns_day t (arg_timestep args) with
                  | Ok _ => Ok tt
                  | Raise e => Raise e
                  end
              | Raise e => Raise e
              end
          | Raise e => Raise e
          end
      | Raise e => Raise e
      end
  | Raise e => Raise e
  end.

Definition step_events : list event := [ModelCall blank_call; ProfilerStep].

(** Two lists agree on their first [n] positions. *)
Definition agree_below {A} (n : nat) (l1 l2 : list A) : Prop :=
  ∀ i, i < n → l2 !! i = l1 !! i.

(** [w'] differs from [w] at most in the dictionary at [c] and in the
    tensors. *)
Definition touched (c : nat) (w w' : world) : Prop :=
  length (dicts w') = length (dicts w)
  ∧ (∀ l, l ≠ c → dicts w' !! l = dicts w !! l)
  ∧ length (tensors w) ≤ length (tensors w')
  ∧ cursor w' = cursor w ∧ step_num w' = step_num w
  ∧ tmpfile w' = tmpfile w ∧ log w' = log w.

(** A computation that leaves the world alone but for events satisfying
    [P] appended to the trace. *)
Definition logs_only {A} (P : event → bool) (c : M A) : Prop :=
  ∀ w, ∃ evs, (c w).2 = World (dicts w) (tensors w) (cursor w) (step_num w) (tmpfile w)
                          (log w ++ evs)
            ∧ forallb P evs = true.

(** No mutation the model ever performs writes into a tensor. *)
Definition mapping_only (model : model_form → gmap string tensor → list mutation) : Prop :=
  ∀ m seen, forallb mapping_level (model m seen) = true.

(** The [i]-th call after the pool [datas] was built in world [w1]: it is
    made on model [m], on a dictionary allocated after the pool, a copy of
    the pool frame whose turn it is. *)
Definition call_ok (m : model_form) (datas : list loc) (w1 : world) (i : nat) (c : call) : Prop :=
  c_model c = m
  ∧ datas !! ((cursor w1 + i) mod length datas) = Some (c_frame c)
  ∧ length (dicts w1) ≤ c_arg c.

Definition sees_original (w1 : world) (c : call) : Prop :=
  ∃ dd, dicts w1 !! c_frame c = Some dd ∧ c_seen c = view_of w1 dd.

(** The state of a run after the pool [datas] was built in world [w1]:
    the pool's dictionaries are as they were, and the calls made so far
    took its frames in turn. *)
Definition driver_inv (model : model_form → gmap string tensor → list mutation)
    (m : model_form) (datas : list loc) (w1 w : world) : Prop :=
  agree_below (length (dicts w1)) (dicts w1) (dicts w)
  ∧ length (tensors w1) ≤ length (tensors w)
  ∧ (∃ evs, log w = log w1 ++ evs
          ∧ cursor w = cursor w1 + length (calls evs)
          ∧ (∀ i c, calls evs !! i = Some c → call_ok m datas w1 i c)
          ∧ (mapping_only model → Forall (sees_original w1) (calls evs)))
  ∧ (mapping_only model → agree_below (length (tensors w1)) (tensors w1) (tensors w)).

(** The number of edges of a frame: [edge_index.shape[1]]. *)
Definition edge_count (f : AtomicData) : nat := shape1 (ad_edge_index f).

(** Every edge of the frame starts at one of its atoms. *)
Definition edges_in_range (f : AtomicData) : bool :=
  match ad_edge_index f with
  | senders :: _ =>
      forallb (λ x, (0 <=? x)%Z && (x <? Z.of_nat (length (ad_pos f)))%Z) senders
  | [] => false
  end.

(** The diagnostics printed for the sampled [frames] (lines 106-127). *)
Definition statistics_events (args : Args) (dataset frames : list AtomicData)
    (n_atom : nat) : list event :=
  [Printed (MsgLoaded (length dataset) (arg_n_data args));
   Printed MsgFrameStatistics;
   Printed (MsgNumAtoms n_atom);
   Printed MsgNumTypes;
   Printed (MsgAvgNumEdges (sum_list (edge_count <$> frames)) (length frames));
   Printed (MsgAvgNeighPerAtom (sum_list (edge_count <$> frames)) (length frames * n_atom))].

(** * Proofs *)

(** ** Running the monad *)

Lemma run_bind {A B} (c : M A) (k : A → M B) w :
  (c ≫= k) w = match c w with
               | (Ok a, w') => k a w'
               | (Raise e, w') => (Raise e, w')
               end.
Proof. reflexivity. Qed.

Lemma run_ret {A} (a : A) w : (mret a : M A) w = (Ok a, w).
Proof. reflexivity. Qed.

Ltac simpl_world :=
  unfold emit, modify, gets, set_dicts, set_tensors, set_cursor, set_step_num,
         set_tmpfile, add_log in *;
  cbn [dicts tensors cursor step_num tmpfile log] in *.

Ltac run :=
  repeat first [ rewrite run_bind | rewrite run_ret | progress simpl_world
               | progress (cbn beta iota) ].

(** A world is its six components. *)
Lemma world_eta w :
  w = World (dicts w) (tensors w) (cursor w) (step_num w) (tmpfile w) (log w).
Proof. by destruct w. Qed.

Lemma get_dict_run w l d : dicts w !! l = Some d → get_dict l w = (Ok d, w).
Proof. unfold get_dict. by intros ->. Qed.

Lemma get_tensor_run w a t : tensors w !! a = Some t → get_tensor a w = (Ok t, w).
Proof. unfold get_tensor. by intros ->. Qed.

Lemma dict_getitem_run w l d k a :
  dicts w !! l = Some d → d !! k = Some a → dict_getitem l k w = (Ok a, w).
Proof.
  intros Hd Hk. unfold dict_getitem. rewrite run_bind, (get_dict_run _ _ _ Hd).
  by rewrite Hk.
Qed.

(** ** Allocation of a frame *)

Lemma alloc_fields_run kts w :
  ∃ d, alloc_fields kts w
       = (Ok d, World (dicts w) (tensors w ++ kts.*2) (cursor w) (step_num w) (tmpfile w) (log w))
     ∧ (∀ k a, d !! k = Some a → a < length (tensors w) + length kts)
     ∧ (∀ k, d !! k ≫= (λ a, (tensors w ++ kts.*2) !! a)
             = (list_to_map kts : gmap string tensor) !! k).
Proof.
  revert w. induction kts as [|[k0 t0] rest IH]; intros w.
  - exists ∅. split_and!.
    + cbn. rewrite app_nil_r. by rewrite <- world_eta.
    + intros k a. by rewrite lookup_empty.
    + intros k. by rewrite !lookup_empty.
  - destruct (IH (set_tensors (λ ts, ts ++ [t0]) w)) as (d & Hrun & Hlt & Hview).
    cbn in Hrun, Hlt, Hview. rewrite <- app_assoc in Hrun, Hview. cbn in Hrun, Hview.
    exists (<[k0 := length (tensors w)]> d). split_and!.
    + cbn [alloc_fields]. rewrite run_bind. cbn [new_tensor].
      rewrite run_bind, Hrun. reflexivity.
    + intros k a. rewrite length_app in Hlt. cbn in *.
      destruct (decide (k = k0)) as [->|Hne].
      * rewrite lookup_insert_eq. intros [= <-]. lia.
      * rewrite lookup_insert_ne by done. intros H%Hlt. lia.
    + intros k. cbn. destruct (decide (k = k0)) as [->|Hne].
      * rewrite !lookup_insert_eq. cbn.
        by rewrite list_lookup_middle.
      * rewrite !lookup_insert_ne by done. apply Hview.
Qed.

Lemma grows_refl w : grows w w.
Proof. by repeat split. Qed.

Lemma grows_trans w1 w2 w3 : grows w1 w2 → grows w2 w3 → grows w1 w3.
Proof.
  intros (?&?&?&?&?&?) (?&?&?&?&?&?). repeat split; try congruence.
  - by etrans.
  - by etrans.
Qed.

Lemma view_of_lookup w dd k :
  view_of w dd !! k = dd !! k ≫= (λ a, tensors w !! a).
Proof. unfold view_of. apply lookup_omap. Qed.

Lemma frame_at_grows w w' d f : grows w w' → frame_at w d f → frame_at w' d f.
Proof.
  intros (Hd & Ht & _) (dd & Hdd & Hcl & Hv). exists dd. split_and!.
  - by eapply prefix_lookup_Some.
  - intros k a Hk. apply Hcl in Hk. apply prefix_length in Ht. lia.
  - rewrite <- Hv. apply map_eq. intros k. rewrite !view_of_lookup.
    destruct (dd !! k) as [a|] eqn:Hk; [|done]. cbn.
    destruct (lookup_lt_is_Some_2 (tensors w) a (Hcl _ _ Hk)) as [t Hta].
    rewrite Hta. by eapply prefix_lookup_Some.
Qed.

Lemma to_AtomicDataDict_run f w :
  ∃ w', to_AtomicDataDict f w = (Ok (length (dicts w)), w')
      ∧ grows w w' ∧ frame_at w' (length (dicts w)) f.
Proof.
  unfold to_AtomicDataDict.
  destruct (alloc_fields_run (map_to_list (frame_fields f)) w) as (d & Hrun & Hlt & Hview).
  eexists. split; [|split].
  - rewrite run_bind, Hrun. reflexivity.
  - repeat split; cbn; by apply prefix_app_r.
  - exists d. split_and!; cbn.
    + by rewrite list_lookup_middle.
    + intros k a Hk. apply Hlt in Hk. by rewrite length_app, length_fmap.
    + apply map_eq. intros k. rewrite view_of_lookup. cbn. rewrite Hview.
      by rewrite list_to_map_to_list.
Qed.

Section SamplerProofs.
Variable randperm : Z → nat → list nat.
Variable dataset : list AtomicData.

Lemma load_frames_run idx frames w :
  mapM (dataset !!.) idx = Some frames →
  ∃ datas w', mapM (load_frame dataset) idx w = (Ok datas, w')
            ∧ grows w w' ∧ Forall2 (frame_at w') datas frames.
Proof.
  intros H%mapM_Some. revert w.
  induction H as [|i f idx frames Hi _ IH]; intros w.
  - exists [], w. split_and!; [done|apply grows_refl|constructor].
  - destruct (to_AtomicDataDict_run f w) as (w1 & Hrun & Hg1 & Hat).
    destruct (IH w1) as (datas & w2 & Hrun2 & Hg2 & Hall).
    exists (length (dicts w) :: datas), w2. split_and!.
    + cbn [mapM]. rewrite run_bind. unfold load_frame at 1.
      rewrite run_bind. unfold dataset_getitem. rewrite Hi. cbn.
      rewrite Hrun. rewrite run_bind. rewrite Hrun2. done.
    + by eapply grows_trans.
    + constructor; [|done]. by eapply frame_at_grows.
Qed.

Lemma load_frames_fail idx w :
  mapM (dataset !!.) idx = None →
  ∃ w', mapM (load_frame dataset) idx w = (Raise IndexError, w') ∧ grows w w'.
Proof.
  revert w. induction idx as [|i idx IH]; intros w; [done|].
  cbn [mapM]. destruct (dataset !! i) as [f|] eqn:Hi; cbn.
  - destruct (mapM (dataset !!.) idx) as [frames|] eqn:Hrest; [done|]. intros _.
    destruct (to_AtomicDataDict_run f w) as (w1 & Hrun & Hg1 & Hat).
    destruct (IH w1 eq_refl) as (w2 & Hrun2 & Hg2).
    exists w2. split; [|by eapply grows_trans].
    rewrite run_bind. unfold load_frame at 1.
    rewrite run_bind. unfold dataset_getitem. rewrite Hi. cbn.
    rewrite Hrun. rewrite run_bind. by rewrite Hrun2.
  - intros _. exists w. split; [|apply grows_refl].
    rewrite run_bind. unfold load_frame at 1.
    rewrite run_bind. unfold dataset_getitem. by rewrite Hi.
Qed.

Lemma atom_count_run w d f :
  frame_at w d f → atom_count d w = (Ok (length (ad_pos f)), w).
Proof.
  intros (dd & Hdd & Hcl & Hv).
  assert (view_of w dd !! "pos" = Some (ad_pos f)) as Hpos.
  { rewrite Hv. unfold frame_fields, POSITIONS_KEY. by rewrite lookup_insert_eq. }
  rewrite view_of_lookup in Hpos.
  destruct (dd !! "pos") as [a|] eqn:Ha; [|done]. cbn in Hpos.
  unfold atom_count. rewrite run_bind, (dict_getitem_run _ _ _ _ _ Hdd Ha).
  rewrite run_bind, (get_tensor_run _ _ _ Hpos). done.
Qed.

Lemma all_atom_counts_run w n datas frames :
  Forall2 (frame_at w) datas frames →
  all_atom_counts n datas w = (Ok (uniform_atoms n frames), w).
Proof.
  induction 1 as [|d f datas frames Hat _ IH]; [done|].
  cbn [all_atom_counts uniform_atoms forallb].
  rewrite run_bind, (atom_count_run _ _ _ Hat).
  destruct (bool_decide _); [apply IH|done].
Qed.

Lemma frame_sampler_run args config frames w :
  mapM (dataset !!.) (sampled_indices randperm config (length dataset) (arg_n_data args))
    = Some frames →
  ∃ datas w', frame_sampler randperm args config dataset w = (sampler_verdict datas frames, w')
            ∧ grows w w' ∧ Forall2 (frame_at w') datas frames.
Proof.
  intros H. destruct (load_frames_run _ _ w H) as (datas & w' & Hrun & Hg & Hall).
  exists datas, w'. split_and!; [|done..].
  unfold frame_sampler. rewrite run_bind. rewrite Hrun.
  rewrite run_bind. destruct Hall as [|d f datas frames Hat Hall]; [done|].
  rewrite (atom_count_run _ _ _ Hat). rewrite run_bind.
  rewrite (all_atom_counts_run w' _ (d :: datas) (f :: frames)) by by constructor.
  unfold sampler_verdict. by destruct (uniform_atoms _ _).
Qed.

Lemma frame_sampler_fail args config w :
  mapM (dataset !!.) (sampled_indices randperm config (length dataset) (arg_n_data args))
    = None →
  ∃ w', frame_sampler randperm args config dataset w = (Raise IndexError, w') ∧ grows w w'.
Proof.
  intros H. destruct (load_frames_fail _ w H) as (w' & Hrun & Hg).
  exists w'. split; [|done].
  unfold frame_sampler. rewrite run_bind. by rewrite Hrun.
Qed.
End SamplerProofs.

(** ** What the model's mutations can touch *)

Lemma touched_refl c w : touched c w w.
Proof. by repeat split. Qed.

Lemma touched_trans c w1 w2 w3 : touched c w1 w2 → touched c w2 w3 → touched c w1 w3.
Proof.
  intros (?&Ha&?&?&?&?&?) (?&Hb&?&?&?&?&?). repeat split; try congruence; try lia.
  intros l Hl. by rewrite Hb, Ha.
Qed.

Lemma agree_below_refl {A} n (l : list A) : agree_below n l l.
Proof. by intros i _. Qed.

Lemma agree_below_length {A} (l1 l2 : list A) :
  agree_below (length l1) l1 l2 → length l1 ≤ length l2.
Proof.
  intros H. destruct (decide (length l1 ≤ length l2)) as [|Hgt]; [done|].
  assert (length l2 < length l1) as Hlt by lia.
  specialize (H _ Hlt). rewrite lookup_ge_None_2 in H by lia.
  destruct (lookup_lt_is_Some_2 l1 _ Hlt) as [x Hx]. congruence.
Qed.

Lemma agree_below_trans {A} n m (l1 l2 l3 : list A) :
  n ≤ m → agree_below n l1 l2 → agree_below m l2 l3 → agree_below n l1 l3.
Proof. intros Hnm H1 H2 i Hi. rewrite H2 by lia. by apply H1. Qed.

Lemma exec_mutation_run c mu w :
  c < length (dicts w) →
  ∃ w', exec_mutation c mu w = (Ok tt, w') ∧ touched c w w'
      ∧ (mapping_level mu = true → agree_below (length (tensors w)) (tensors w) (tensors w')).
Proof.
  intros Hc. destruct mu as [k t|k|k t]; cbn [exec_mutation].
  - eexists. split; [reflexivity|]. split.
    + unfold touched; cbn. split_and!; try done.
      * by rewrite length_alter.
      * intros l Hl. by rewrite list_lookup_alter_ne.
      * rewrite length_app. lia.
    + intros _ i Hi. cbn. by rewrite lookup_app_l.
  - eexists. split; [reflexivity|]. split.
    + unfold touched; cbn. split_and!; try done.
      * by rewrite length_alter.
      * intros l Hl. by rewrite list_lookup_alter_ne.
    + intros _. apply agree_below_refl.
  - destruct (lookup_lt_is_Some_2 _ _ Hc) as [d Hd].
    rewrite run_bind, (get_dict_run _ _ _ Hd).
    destruct (d !! k) as [a|].
    + eexists. split; [reflexivity|]. split; [|done].
      unfold touched; cbn. split_and!; try done. by rewrite length_insert.
    + eexists. split; [reflexivity|]. split; [apply touched_refl|done].
Qed.

Lemma exec_mutations_run c mus w :
  c < length (dicts w) →
  ∃ w', exec_mutations c mus w = (Ok tt, w') ∧ touched c w w'
      ∧ (forallb mapping_level mus = true →
         agree_below (length (tensors w)) (tensors w) (tensors w')).
Proof.
  revert w. induction mus as [|mu mus IH]; intros w Hc.
  - exists w. split_and!; [done|apply touched_refl|]. intros _. apply agree_below_refl.
  - destruct (exec_mutation_run c mu w Hc) as (w1 & Hrun1 & Ht1 & Hp1).
    destruct (IH w1) as (w2 & Hrun2 & Ht2 & Hp2).
    { destruct Ht1 as (-> & _). done. }
    exists w2. split_and!.
    + cbn [exec_mutations]. by rewrite run_bind, Hrun1.
    + by eapply touched_trans.
    + cbn [forallb]. intros [Hmu Hmus]%andb_prop.
      eapply agree_below_trans; [|by apply Hp1|by apply Hp2].
      by destruct Ht1 as (_ & _ & ? & _).
Qed.

Lemma view_of_agree w w' dd :
  (∀ k a, dd !! k = Some a → a < length (tensors w)) →
  agree_below (length (tensors w)) (tensors w) (tensors w') →
  view_of w' dd = view_of w dd.
Proof.
  intros Hcl Hag. apply map_eq. intros k. rewrite !view_of_lookup.
  destruct (dd !! k) as [a|] eqn:Hk; [|done]. cbn. apply Hag. by eapply Hcl.
Qed.

Section DriverProofs.
Variable model : model_form → gmap string tensor → list mutation.

Variable m : model_form.
Variable datas : list nat.
Variable w1 : world.

Local Abbreviation inv := (driver_inv model m datas w1).

Lemma calls_app evs1 evs2 : calls (evs1 ++ evs2) = calls evs1 ++ calls evs2.
Proof. unfold calls. apply omap_app. Qed.

Lemma driver_inv_start : inv w1.
Proof.
  split_and!; [apply agree_below_refl|done| |intros _; apply agree_below_refl].
  exists []. split_and!.
  - by rewrite app_nil_r.
  - cbn. lia.
  - intros i c Hc. by cbn in Hc.
  - intros _. constructor.
Qed.

(** Anything that leaves the objects and the cursor alone and logs no
    call keeps the invariant. *)
Lemma driver_inv_other w w' evs :
  inv w →
  dicts w' = dicts w → tensors w' = tensors w → cursor w' = cursor w →
  log w' = log w ++ evs → calls evs = [] →
  inv w'.
Proof.
  intros (Hd & Ht & (evs0 & Hlog & Hcur & Hcalls & Hseen) & Hp) Hd' Ht' Hc' Hl' Hno.
  unfold driver_inv. rewrite Hd', Ht', Hc', Hl'. split_and!; try done.
  exists (evs0 ++ evs). rewrite calls_app, Hno, app_nil_r.
  split_and!; try done. by rewrite Hlog, app_assoc.
Qed.

Hypothesis pool : pool_ok w1 datas.

Lemma pool_lookup w d :
  inv w → d ∈ datas →
  ∃ dd, dicts w !! d = Some dd ∧ dicts w1 !! d = Some dd
      ∧ (∀ k a, dd !! k = Some a → a < length (tensors w1)).
Proof.
  intros (Hd & _) Hin. destruct pool as [_ Hall].
  rewrite Forall_forall in Hall. destruct (Hall d Hin) as (f & dd & Hdd & Hcl & _).
  exists dd. split_and!; [|done..]. rewrite Hd; [done|]. by eapply lookup_lt_Some.
Qed.

Lemma invoke_run w :
  inv w →
  ∃ c w', invoke model m datas w = (Ok tt, w')
        ∧ log w' = log w ++ [ModelCall c]
        ∧ step_num w' = step_num w ∧ tmpfile w' = tmpfile w
        ∧ inv w'
        ∧ cursor w' = S (cursor w)
        ∧ datas !! (cursor w mod length datas) = Some (c_frame c).
Proof.
  intros Hinv.
  assert (length datas ≠ 0) as Hlen.
  { destruct pool as [Hne _]. by destruct datas. }
  destruct (lookup_lt_is_Some_2 datas (cursor w mod length datas)) as [d Hd].
  { by apply Nat.mod_upper_bound. }
  destruct (pool_lookup w d Hinv) as (dd & Hdd & Hdd1 & Hcl).
  { by eapply list_elem_of_lookup_2. }
  set (wc := World (dicts w ++ [dd]) (tensors w) (S (cursor w)) (step_num w) (tmpfile w) (log w)).
  set (c := Call m d (length (dicts w)) (view_of w dd)).
  destruct (exec_mutations_run (length (dicts w)) (model m (view_of w dd)) (add_log (ModelCall c) wc))
    as (w' & Hrun & Ht & Hpure).
  { cbn. rewrite length_app. cbn. lia. }
  exists c, w'.
  destruct Ht as (Hlen' & Hother & Htl & Hcur & Hstep & Htmp & Hlog). cbn in *.
  destruct Hinv as (Hd0 & Ht0 & (evs & Hlog0 & Hcur0 & Hcalls & Hseen) & Hp0).
  split_and!; try done.
  - unfold invoke. rewrite run_bind. unfold cycle_next. rewrite run_bind. cbn [gets].
    rewrite Hd. rewrite run_bind. cbn [modify]. rewrite run_ret.
    rewrite run_bind. unfold dict_copy. rewrite run_bind.
    rewrite (get_dict_run _ d dd) by done. cbn [new_dict set_cursor set_dicts dicts tensors cursor step_num tmpfile log].
    unfold call_model. rewrite run_bind. unfold view.
    simpl_world. rewrite list_lookup_middle by done.
    rewrite run_bind. cbn [emit]. exact Hrun.
  - split_and!.
    + intros i Hi.
      assert (i < length (dicts w)) as Hiw.
      { apply lookup_lt_is_Some. rewrite Hd0 by done. by apply lookup_lt_is_Some_2. }
      rewrite Hother by lia. rewrite lookup_app_l by done. by apply Hd0.
    + lia.
    + exists (evs ++ [ModelCall c]). rewrite calls_app. cbn.
      split_and!.
      * by rewrite Hlog, Hlog0, app_assoc.
      * rewrite Hcur, length_app. cbn. lia.
      * intros i c' Hi. destruct (decide (i < length (calls evs))) as [Hlt|Hge].
        -- rewrite lookup_app_l in Hi by done. by apply Hcalls.
        -- rewrite lookup_app_r in Hi by lia.
           destruct (i - length (calls evs)) as [|j] eqn:Hj; [|done].
           cbn in Hi. injection Hi as <-. unfold call_ok. cbn.
           assert (i = length (calls evs)) as -> by lia.
           rewrite <- Hcur0. split_and!; [done..|].
           by apply agree_below_length.
      * intros Hmo. apply Forall_app. split; [by apply Hseen|].
        constructor; [|constructor]. exists dd. cbn. split; [done|].
        apply (view_of_agree w1 w dd Hcl). by apply Hp0.
    + intros Hmo. eapply agree_below_trans; [exact Ht0|by apply Hp0|].
      apply Hpure. apply Hmo.
Qed.

Lemma invoke_loop k w :
  inv w →
  ∃ cs w', for_range k (invoke model m datas) w = (Ok tt, w')
         ∧ log w' = log w ++ (ModelCall <$> cs) ∧ length cs = k
         ∧ step_num w' = step_num w ∧ tmpfile w' = tmpfile w
         ∧ inv w'
         ∧ (∀ i c, cs !! i = Some c →
              datas !! ((cursor w + i) mod length datas) = Some (c_frame c)).
Proof.
  revert w. induction k as [|k IH]; intros w Hinv.
  - exists [], w. split_and!; try done. by rewrite app_nil_r.
  - destruct (invoke_run w Hinv)
      as (c & wa & Hrun & Hlog & Hstep & Htmp & Hinva & Hcur & Hframe).
    destruct (IH wa Hinva)
      as (cs & w' & Hrun' & Hlog' & Hlen & Hstep' & Htmp' & Hinv' & Hrr).
    exists (c :: cs), w'. split_and!; try done; try congruence.
    + cbn [for_range]. by rewrite run_bind, Hrun.
    + rewrite Hlog', Hlog, <- app_assoc. done.
    + cbn. by rewrite Hlen.
    + intros [|i] c' Hi; cbn in Hi.
      * injection Hi as <-. by rewrite Nat.add_0_r.
      * apply Hrr in Hi. rewrite Hcur in Hi.
        by replace (cursor w + S i) with (S (cursor w) + i) by lia.
Qed.

(** *** The tracing session *)

Variable path : string.
Variable warmup : Z.
Variable n : Z.
Hypothesis warmup_nonneg : (0 ≤ warmup)%Z.
Hypothesis n_pos : (0 < n)%Z.

Lemma schedule_recording s :
  (0 ≤ s < warmup + n)%Z → schedule_fn 1 warmup n 1 s ≠ RECORD_AND_SAVE.
Proof.
  intros Hs. unfold schedule_fn. cbn zeta.
  replace ((0 <? 1)%Z) with true by done. cbn [andb].
  destruct (Z.leb_spec (1 * (1 + warmup + n)) s); [lia|].
  rewrite Z.mod_small by lia.
  destruct (Z.ltb_spec s 1); [done|].
  destruct (Z.ltb_spec s (1 + warmup)); [done|].
  destruct (Z.ltb_spec s (1 + warmup + n - 1)); [done|lia].
Qed.

Lemma schedule_last : schedule_fn 1 warmup n 1 (warmup + n) = RECORD_AND_SAVE.
Proof.
  unfold schedule_fn. cbn zeta.
  replace ((0 <? 1)%Z) with true by done. cbn [andb].
  destruct (Z.leb_spec (1 * (1 + warmup + n)) (warmup + n)); [lia|].
  rewrite Z.mod_small by lia.
  destruct (Z.ltb_spec (warmup + n) 1); [lia|].
  destruct (Z.ltb_spec (warmup + n) (1 + warmup)); [lia|].
  destruct (Z.ltb_spec (warmup + n) (1 + warmup + n - 1)); [lia|done].
Qed.

Lemma schedule_over : schedule_fn 1 warmup n 1 (1 + warmup + n) = NONE.
Proof.
  unfold schedule_fn. cbn zeta.
  replace ((0 <? 1)%Z) with true by done. cbn [andb].
  destruct (Z.leb_spec (1 * (1 + warmup + n)) (1 + warmup + n)); [done|lia].
Qed.

Lemma profile_step_run sched w :
  profile_step sched (trace_handler path) w
  = (Ok tt,
     World (dicts w) (tensors w) (cursor w) (step_num w + 1)%Z (tmpfile w)
       (log w ++ ProfilerStep ::
          (if trace_ready_fires (sched (step_num w)) (Some (sched (step_num w + 1)%Z))
           then [ExportChromeTrace path; Printed (MsgWroteTrace path)] else []))).
Proof.
  unfold profile_step, transit_action.
  rewrite run_bind. cbn [emit]. rewrite run_bind. cbn [gets]. simpl_world.
  rewrite run_bind. cbn [modify]. simpl_world.
  destruct (trace_ready_fires _ _).
  - unfold trace_handler, print. rewrite run_bind. cbn [emit]. simpl_world.
    simpl_world. by rewrite <- !app_assoc.
  - rewrite run_ret. by rewrite app_nil_r || done.
Qed.

Lemma tracing_loop j w :
  inv w →
  (0 ≤ step_num w)%Z → (step_num w + Z.of_nat j = warmup + n)%Z →
  ∃ evs w',
    for_range (S j)
      (invoke model m datas;;
       profile_step (schedule_fn 1 warmup n 1) (trace_handler path)) w = (Ok tt, w')
    ∧ log w' = log w ++ evs
    ∧ erase <$> evs = concat (replicate (S j) step_events)
                      ++ [ExportChromeTrace path; Printed (MsgWroteTrace path)]
    ∧ step_num w' = (1 + warmup + n)%Z ∧ tmpfile w' = tmpfile w
    ∧ inv w'.
Proof.
  revert w. induction j as [|j IH]; intros w Hinv Hs0 Hs.
  - destruct (invoke_run w Hinv) as (c & wa & Hrun & Hlog & Hstep & Htmp & Hinva & _).
    eexists _, _. split_and!.
    + cbn [for_range]. rewrite run_bind, run_bind, Hrun, profile_step_run.
      rewrite run_ret. reflexivity.
    + simpl_world. rewrite Hlog, <- app_assoc. reflexivity.
    + rewrite Hstep. replace (step_num w) with (warmup + n)%Z by lia.
      rewrite schedule_last. cbn. reflexivity.
    + simpl_world. lia.
    + done.
    + eapply (driver_inv_other wa); [done|done..| |]; simpl_world; [reflexivity|].
      by destruct (trace_ready_fires _ _).
  - destruct (invoke_run w Hinv) as (c & wa & Hrun & Hlog & Hstep & Htmp & Hinva & _).
    set (wb := World (dicts wa) (tensors wa) (cursor wa) (step_num wa + 1)%Z (tmpfile wa)
                 (log wa ++ [ProfilerStep])).
    assert (profile_step (schedule_fn 1 warmup n 1) (trace_handler path) wa = (Ok tt, wb)) as Hps.
    { rewrite profile_step_run.
      assert (schedule_fn 1 warmup n 1 (step_num wa) ≠ RECORD_AND_SAVE) as Hne.
      { apply schedule_recording. lia. }
      destruct (schedule_fn 1 warmup n 1 (step_num wa)); done. }
    destruct (IH wb) as (evs & w' & Hrun' & Hlog' & Her & Hstep' & Htmp' & Hinv').
    { eapply (driver_inv_other wa); [done|done..|reflexivity|done]. }
    { subst wb. simpl_world. lia. }
    { subst wb. simpl_world. lia. }
    exists (ModelCall c :: ProfilerStep :: evs), w'. split_and!; try done.
    + change (for_range (S (S j)) ?b) with (b;; for_range (S j) b).
      rewrite run_bind, run_bind, Hrun, Hps. exact Hrun'.
    + rewrite Hlog'. subst wb. simpl_world. rewrite Hlog, <- !app_assoc. done.
    + cbn [fmap list_fmap erase]. rewrite Her. reflexivity.
    + rewrite Htmp'. subst wb. simpl_world. done.
Qed.

Lemma tracing_run dev w :
  inv w →
  ∃ evs w',
    tracing model path dev warmup n m datas w = (Ok tt, w')
    ∧ log w' = log w ++ evs
    ∧ erase <$> evs
      = [Printed MsgStarting; ProfilerSchedule 1 warmup n 1;
         ProfilerEnter ([CPU] ++ (if bool_decide (device_type dev = "cuda") then [CUDA] else []))]
        ++ concat (replicate (Z.to_nat (1 + warmup + n)) step_events)
        ++ [ExportChromeTrace path; Printed (MsgWroteTrace path); ProfilerExit]
    ∧ inv w'.
Proof.
  intros Hinv.
  set (acts := [CPU] ++ (if bool_decide (device_type dev = "cuda") then [CUDA] else [])).
  set (w0 := World (dicts w) (tensors w) (cursor w) 0%Z (tmpfile w)
               (log w ++ [Printed MsgStarting; ProfilerSchedule 1 warmup n 1; ProfilerEnter acts])).
  assert (inv w0) as Hinv0.
  { eapply (driver_inv_other w); [done|done..|reflexivity|done]. }
  replace (Z.to_nat (1 + warmup + n)) with (S (Z.to_nat (warmup + n))) by lia.
  destruct (tracing_loop (Z.to_nat (warmup + n)) w0 Hinv0)
    as (evs & w' & Hrun & Hlog & Her & Hstep & Htmp & Hinv'); [done|subst w0; simpl_world; lia|].
  eexists _, _. split_and!.
  - unfold tracing, print. rewrite run_bind. simpl_world.
    unfold schedule.
    rewrite (bool_decide_true (0 ≤ 1 ∧ 0 ≤ warmup ∧ 0 < n ∧ 0 ≤ 1)%Z) by lia.
    rewrite run_bind, run_bind. simpl_world. rewrite run_ret.
    unfold profile_enter. rewrite run_bind, run_bind. simpl_world.
    rewrite run_bind. simpl_world. unfold transit_action. cbn [trace_ready_fires].
    rewrite run_ret. unfold finally, for_in_range.
    replace (Z.to_nat (1 + warmup + n)) with (S (Z.to_nat (warmup + n))) by lia.
    rewrite <- !app_assoc. cbn [app].
    match goal with |- context [for_range _ _ ?x] => change x with w0 end.
    rewrite Hrun.
    unfold profile_exit. rewrite run_bind. simpl_world. rewrite Hstep.
    rewrite run_bind. unfold transit_action. rewrite schedule_over.
    cbn [trace_ready_fires]. rewrite run_ret. reflexivity.
  - simpl_world. rewrite Hlog. subst w0. simpl_world.
    rewrite <- !app_assoc. reflexivity.
  - rewrite !fmap_app, Her. cbn. rewrite <- !app_assoc. reflexivity.
  - eapply (driver_inv_other w'); [done|done..|reflexivity|done].
Qed.

(** *** Warmup and timing *)

Variable timeit_runs : Z → nat.
Variable timer_reading : result float.
Variable select_unit : float → result unit.

Lemma metrics_reporter_run args n_atom w :
  metrics_reporter timer_reading select_unit args n_atom w
  = (metrics_result timer_reading select_unit args n_atom,
     World (dicts w) (tensors w) (cursor w) (step_num w) (tmpfile w)
       (log w ++ metrics_events timer_reading select_unit args n_atom)).
Proof.
  unfold metrics_reporter, metrics_result, metrics_events, print, lift.
  destruct timer_reading as [t|e]; run; [|done].
  destruct (select_unit t) as [[]|e]; run; [|done].
  destruct (per_atom_time t n_atom) as [p|e]; run; [|by rewrite <- !app_assoc].
  destruct (select_unit p) as [[]|e]; run; [|by rewrite <- !app_assoc].
  destruct (ns_day t (arg_timestep args)) as [d|e]; run; by rewrite <- !app_assoc.
Qed.

Lemma calls_metrics_events args n_atom :
  calls (metrics_events timer_reading select_unit args n_atom) = [].
Proof.
  unfold metrics_events. destruct timer_reading as [t|]; [|done].
  destruct (select_unit t); [|done]. destruct (per_atom_time _ _) as [p|]; [|done].
  destruct (select_unit p); [|done]. by destruct (ns_day _ _).
Qed.

Lemma calls_ModelCall cs : calls (ModelCall <$> cs) = cs.
Proof. induction cs as [|c cs IH]; [done|]. cbn. f_equal. exact IH. Qed.

Lemma timing_run args n_atom w :
  inv w →
  ∃ warm meas w',
    timing model timeit_runs timer_reading select_unit args warmup n_atom m datas w
    = (metrics_result timer_reading select_unit args n_atom, w')
    ∧ log w' = log w ++ [Printed MsgWarmup] ++ (ModelCall <$> warm)
               ++ [Printed (MsgWarmupTime warmup); Printed MsgStarting; TimerTimeit (arg_n args)]
               ++ (ModelCall <$> meas) ++ [TimerDone]
               ++ metrics_events timer_reading select_unit args n_atom
    ∧ length warm = Z.to_nat warmup
    ∧ length meas = timeit_runs (arg_n args)
    ∧ inv w'
    ∧ (∀ i c, warm !! i = Some c →
         datas !! ((cursor w + i) mod length datas) = Some (c_frame c)).
Proof.
  intros Hinv.
  set (wa := World (dicts w) (tensors w) (cursor w) (step_num w) (tmpfile w)
               (log w ++ [Printed MsgWarmup])).
  assert (inv wa) as Hinva.
  { eapply (driver_inv_other w); [done|done..|reflexivity|done]. }
  destruct (invoke_loop (Z.to_nat warmup) wa Hinva)
    as (warm & wb & Hrunb & Hlogb & Hlenb & Hstepb & Htmpb & Hinvb & Hrr).
  set (wc := World (dicts wb) (tensors wb) (cursor wb) (step_num wb) (tmpfile wb)
               (log wb ++ [Printed (MsgWarmupTime warmup); Printed MsgStarting;
                           TimerTimeit (arg_n args)])).
  assert (inv wc) as Hinvc.
  { eapply (driver_inv_other wb); [done|done..|reflexivity|done]. }
  destruct (invoke_loop (timeit_runs (arg_n args)) wc Hinvc)
    as (meas & wd & Hrund & Hlogd & Hlend & Hstepd & Htmpd & Hinvd & _).
  exists warm, meas,
    (World (dicts wd) (tensors wd) (cursor wd) (step_num wd) (tmpfile wd)
       (log wd ++ TimerDone :: metrics_events timer_reading select_unit args n_atom)).
  split_and!; [| |done|done| |done].
  - unfold timing, print. run.
    unfold for_in_range. run.
    match goal with |- context [for_range _ _ ?x] => change x with wa end.
    rewrite Hrunb. run.
    unfold timer_timeit. run.
    rewrite <- !app_assoc. cbn [app].
    match goal with |- context [for_range _ _ ?x] => change x with wc end.
    rewrite Hrund. run.
    rewrite metrics_reporter_run. simpl_world.
    rewrite <- !app_assoc. reflexivity.
  - simpl_world. rewrite Hlogd. subst wc. simpl_world. rewrite Hlogb. subst wa. simpl_world.
    rewrite <- !app_assoc. reflexivity.
  - eapply (driver_inv_other wd); [done|done..|simpl_world; reflexivity| ].
    change (TimerDone :: ?l) with ([TimerDone] ++ l).
    rewrite calls_app. cbn. apply calls_metrics_events.
Qed.
End DriverProofs.

(** ** The model preparer *)

Lemma foldl_snoc {A} (l evs : list A) : foldl (λ acc e, acc ++ [e]) l evs = l ++ evs.
Proof.
  revert l. induction evs as [|e evs IH]; intros l; cbn.
  - by rewrite app_nil_r.
  - by rewrite IH, <- app_assoc.
Qed.

Lemma model_preparer_run args dev w :
  model_preparer args dev w
  = (Ok (prepared_model args dev),
     World (dicts w) (tensors w) (cursor w) (step_num w)
       (if arg_no_compile args then tmpfile w else None)
       (log w ++ preparer_events args dev)).
Proof.
  rewrite <- foldl_snoc.
  unfold model_preparer, prepared_model, preparer_events.
  destruct (arg_no_compile args); reflexivity.
Qed.

(** ** Computations that only print *)

Lemma logs_only_ret {A} P (a : A) : logs_only P (mret a).
Proof. intros w. exists []. rewrite app_nil_r. split; [apply world_eta|done]. Qed.

Lemma logs_only_raise {A} P e : logs_only P (raise e : M A).
Proof. intros w. exists []. rewrite app_nil_r. split; [apply world_eta|done]. Qed.

Lemma logs_only_lift {A} P (r : result A) : logs_only P (lift r).
Proof. intros w. exists []. rewrite app_nil_r. split; [apply world_eta|done]. Qed.

Lemma logs_only_print P msg : P (Printed msg) = true → logs_only P (print msg).
Proof. intros H w. exists [Printed msg]. split; [done|]. cbn. by rewrite H. Qed.

Lemma logs_only_bind {A B} P (c : M A) (k : A → M B) :
  logs_only P c → (∀ a, logs_only P (k a)) → logs_only P (c ≫= k).
Proof.
  intros Hc Hk w. rewrite run_bind. destruct (Hc w) as (evs & Hw & Hevs).
  destruct (c w) as [[a|e] w']; cbn in Hw; subst w'.
  - destruct (Hk a (World (dicts w) (tensors w) (cursor w) (step_num w) (tmpfile w)
                       (log w ++ evs))) as (evs' & Hw' & Hevs').
    exists (evs ++ evs'). rewrite Hw'. cbn. rewrite app_assoc. split; [done|].
    rewrite forallb_app. by rewrite Hevs, Hevs'.
  - by exists evs.
Qed.

Lemma logs_only_get_dict P l : logs_only P (get_dict l).
Proof.
  intros w. exists []. rewrite app_nil_r. split; [|done].
  unfold get_dict. destruct (dicts w !! l); apply world_eta.
Qed.

Lemma logs_only_get_tensor P a : logs_only P (get_tensor a).
Proof.
  intros w. exists []. rewrite app_nil_r. split; [|done].
  unfold get_tensor. destruct (tensors w !! a); apply world_eta.
Qed.

Lemma logs_only_dict_getitem P l k : logs_only P (dict_getitem l k).
Proof.
  apply logs_only_bind; [apply logs_only_get_dict|]. intros d.
  destruct (d !! k); [apply logs_only_ret|apply logs_only_raise].
Qed.

Lemma logs_only_mapM {A B} P (f : A → M B) xs :
  (∀ x, logs_only P (f x)) → logs_only P (mapM f xs).
Proof.
  intros Hf. induction xs as [|x xs IH]; [apply logs_only_ret|].
  cbn [mapM]. apply logs_only_bind; [apply Hf|]. intros y.
  apply logs_only_bind; [apply IH|]. intros ys. apply logs_only_ret.
Qed.

Lemma logs_only_report_statistics args dataset datas n_atom :
  logs_only is_diagnostic (report_statistics args dataset datas n_atom).
Proof.
  unfold report_statistics.
  repeat (apply logs_only_bind; [by apply logs_only_print|intros _]).
  apply logs_only_bind.
  { apply logs_only_mapM. intros d. unfold num_edges.
    apply logs_only_bind; [apply logs_only_dict_getitem|intros a].
    apply logs_only_bind; [apply logs_only_get_tensor|intros t]. apply logs_only_ret. }
  intros edges. apply logs_only_bind; [by apply logs_only_print|intros _].
  apply logs_only_bind.
  { apply logs_only_mapM. intros d. unfold neighbor_counts.
    apply logs_only_bind; [apply logs_only_dict_getitem|intros a].
    apply logs_only_bind; [apply logs_only_get_tensor|intros t].
    apply logs_only_bind; [destruct t; [apply logs_only_raise|apply logs_only_ret]|intros row].
    apply logs_only_bind; [apply logs_only_dict_getitem|intros p].
    apply logs_only_bind; [apply logs_only_get_tensor|intros pos].
    apply logs_only_lift. }
  intros counts. by apply logs_only_print.
Qed.

Lemma frame_at_same w w' d f :
  dicts w' = dicts w → tensors w' = tensors w → frame_at w d f → frame_at w' d f.
Proof.
  intros Hd Ht (dd & Hdd & Hcl & Hv). exists dd. rewrite Hd, Ht.
  split_and!; [done..|]. rewrite <- Hv. unfold view_of. by rewrite Ht.
Qed.

Section LoadProofs.
Variable cuda_is_available : bool.
Variable randperm : Z → nat → list nat.
Variable args : Args.
Variable config : gmap string Z.
Variable dataset : list AtomicData.

Lemma load_and_sample_run w :
  load_and_sample cuda_is_available randperm args config dataset w
  = ('(datas, n_atom) ← frame_sampler randperm args config dataset;
     report_statistics args dataset datas n_atom;;
     modify (set_cursor 0);;
     mret (select_device cuda_is_available args, datas, n_atom))
      (World (dicts w) (tensors w) (cursor w) (step_num w) (tmpfile w)
         (log w ++ startup_events cuda_is_available args)).
Proof. rewrite <- foldl_snoc. reflexivity. Qed.

Lemma load_and_sample_ok w dev datas n_atom w1 :
  load_and_sample cuda_is_available randperm args config dataset w
    = (Ok (dev, datas, n_atom), w1) →
  dev = select_device cuda_is_available args
  ∧ cursor w1 = 0
  ∧ (∃ evs, log w1 = log w ++ evs ∧ forallb is_diagnostic evs = true)
  ∧ ∃ frames,
      mapM (dataset !!.) (sampled_indices randperm config (length dataset) (arg_n_data args))
        = Some frames
      ∧ sampler_verdict datas frames = Ok (datas, n_atom)
      ∧ Forall2 (frame_at w1) datas frames.
Proof.
  rewrite load_and_sample_run. set (wp := World _ _ _ _ _ _). rewrite run_bind.
  destruct (mapM (dataset !!.) _) as [frames|] eqn:Hidx.
  - destruct (frame_sampler_run randperm dataset args config frames wp Hidx)
      as (datas0 & ws & Hrun & Hg & Hall).
    rewrite Hrun. destruct (sampler_verdict datas0 frames) as [[datas' n']|e] eqn:Hv; [|done].
    assert (datas' = datas0) as ->.
    { unfold sampler_verdict in Hv. destruct frames; [done|].
      destruct (uniform_atoms _ _); congruence. }
    run. destruct (logs_only_report_statistics args dataset datas0 n' ws) as (evs & Hw & Hevs).
    destruct (report_statistics args dataset datas0 n' ws) as [[[]|e] wr]; [|done].
    cbn in Hw. subst wr. run. intros [= <- <- <- <-]. simpl_world.
    destruct Hg as (_ & _ & _ & _ & _ & Hlog).
    split_and!; [done|done| |].
    + rewrite Hlog. subst wp. simpl_world. rewrite <- app_assoc.
      eexists. split; [reflexivity|]. by rewrite forallb_app, Hevs.
    + exists frames. split_and!; [done|done|].
      eapply Forall2_impl; [exact Hall|]. intros d f. by apply frame_at_same.
  - destruct (frame_sampler_fail randperm dataset args config wp Hidx) as (ws & Hrun & _).
    by rewrite Hrun.
Qed.
End LoadProofs.

Section Claims.
Variable cuda_is_available : bool.
Variable randperm : Z → nat → list nat.
Variable model : model_form → gmap string tensor → list mutation.
Variable timeit_runs : Z → nat.
Variable timer_reading : result float.
Variable select_unit : float → result unit.

Local Abbreviation run_main :=
  (main cuda_is_available randperm model timeit_runs timer_reading select_unit).
Local Abbreviation run_load := (load_and_sample cuda_is_available randperm).

Lemma main_after_sampling args config dataset w dev datas n_atom w1 :
  run_load args config dataset w = (Ok (dev, datas, n_atom), w1) →
  run_main args config dataset w
  = (if bool_decide (arg_n args = 0%Z) then print MsgQuitting
     else
       m ← model_preparer args dev;
       warmup ← warmup_depth config;
       match arg_profile args with
       | Some path => tracing model path dev warmup (arg_n args) m datas
       | None => timing model timeit_runs timer_reading select_unit args warmup n_atom m datas
       end) w1.
Proof. intros H. unfold main. by rewrite run_bind, H. Qed.

Lemma pool_ok_of_sample datas frames n_atom w1 :
  sampler_verdict datas frames = Ok (datas, n_atom) →
  Forall2 (frame_at w1) datas frames →
  pool_ok w1 datas.
Proof.
  intros Hv Hall. split.
  - destruct Hall; [done|done].
  - clear Hv. induction Hall; constructor; eauto.
Qed.

(** The invariant of the driver holds at the end of every run that got
    past the sampler, whatever its outcome. *)
Lemma main_driver_inv args config dataset w dev datas n_atom w1 :
  run_load args config dataset w = (Ok (dev, datas, n_atom), w1) →
  driver_inv model (prepared_model args dev) datas w1 (run_main args config dataset w).2.
Proof.
  intros Hload. rewrite (main_after_sampling _ _ _ _ _ _ _ _ Hload).
  destruct (load_and_sample_ok _ _ _ _ _ _ _ _ _ _ Hload)
    as (_ & _ & _ & frames & _ & Hv & Hall).
  pose proof (pool_ok_of_sample _ _ _ _ Hv Hall) as Hpool.
  pose proof (driver_inv_start model (prepared_model args dev) datas w1) as Hinv1.
  case_bool_decide as Hn.
  - eapply (driver_inv_other _ _ _ _ w1); [done|done..|reflexivity|done].
  - rewrite run_bind, model_preparer_run. cbn beta iota.
    set (w2 := World _ _ _ _ _ _).
    assert (driver_inv model (prepared_model args dev) datas w1 w2) as Hinv2.
    { eapply (driver_inv_other _ _ _ _ w1); [done|done..|reflexivity|].
      unfold preparer_events. by destruct (arg_no_compile args). }
    rewrite run_bind. unfold warmup_depth, config_getitem.
    destruct (config !! "_jit_bailout_depth") as [depth|]; [|done].
    run. destruct (arg_profile args) as [path|].
    + destruct (decide (0 ≤ depth + 4 ∧ 0 < arg_n args)%Z) as [[Hw Hp]|Hbad].
      * destruct (tracing_run model (prepared_model args dev) datas w1 Hpool path
                    (depth + 4)%Z (arg_n args) Hw Hp dev w2 Hinv2)
          as (evs & w' & Hrun & _ & _ & Hinv').
        by rewrite Hrun.
      * unfold tracing, print. run. unfold schedule.
        rewrite (bool_decide_false (0 ≤ 1 ∧ 0 ≤ depth + 4 ∧ 0 < arg_n args ∧ 0 ≤ 1)%Z) by lia.
        cbn. eapply (driver_inv_other _ _ _ _ w2); [done|done..|reflexivity|done].
    + destruct (timing_run model (prepared_model args dev) datas w1 Hpool (depth + 4)%Z
                  timeit_runs timer_reading select_unit args n_atom w2 Hinv2)
        as (warm & meas & w' & Hrun & _ & _ & _ & Hinv' & _).
      by rewrite Hrun.
Qed.

(** The state right after the model preparer, for a run that measures. *)
Lemma prepared_inv args config dataset w dev datas n_atom w1 :
  run_load args config dataset w = (Ok (dev, datas, n_atom), w1) →
  pool_ok w1 datas
  ∧ driver_inv model (prepared_model args dev) datas w1
      (World (dicts w1) (tensors w1) (cursor w1) (step_num w1)
         (if arg_no_compile args then tmpfile w1 else None)
         (log w1 ++ preparer_events args dev)).
Proof.
  intros Hload.
  destruct (load_and_sample_ok _ _ _ _ _ _ _ _ _ _ Hload)
    as (_ & _ & _ & frames & _ & Hv & Hall).
  split; [by eapply pool_ok_of_sample|].
  eapply (driver_inv_other _ _ _ _ w1); [apply driver_inv_start|done..|reflexivity|].
  unfold preparer_events. by destruct (arg_no_compile args).
Qed.

Lemma load_and_sample_quiet args config dataset w :
  ∃ evs, log (run_load args config dataset w).2 = log w ++ evs
       ∧ forallb is_diagnostic evs = true.
Proof.
  rewrite load_and_sample_run. set (wp := World _ _ _ _ _ _). rewrite run_bind.
  destruct (mapM (dataset !!.)
              (sampled_indices randperm config (length dataset) (arg_n_data args)))
    as [frames|] eqn:Hidx.
  - destruct (frame_sampler_run randperm dataset args config frames wp Hidx)
      as (datas0 & ws & Hrun & Hg & Hall).
    destruct Hg as (_ & _ & _ & _ & _ & Hlog).
    rewrite Hrun. destruct (sampler_verdict datas0 frames) as [[datas' n']|e].
    + run. destruct (logs_only_report_statistics args dataset datas' n' ws)
        as (evs & Hw & Hevs).
      destruct (report_statistics args dataset datas' n' ws) as [[[]|e] wr];
        cbn in Hw; subst wr; run; rewrite Hlog; subst wp; simpl_world;
        rewrite <- app_assoc;
        (eexists; split; [reflexivity|by rewrite forallb_app, Hevs]).
    + cbn. rewrite Hlog. eexists; split; [reflexivity|done].
  - destruct (frame_sampler_fail randperm dataset args config wp Hidx)
      as (ws & Hrun & Hg).
    destruct Hg as (_ & _ & _ & _ & _ & Hlog).
    rewrite Hrun. cbn. rewrite Hlog. eexists; split; [reflexivity|done].
Qed.

(** C9.  With [-n 0] the run only loads and describes the dataset: its
    trace holds nothing but diagnostics, so no model is built and none is
    called, no warmup is run and nothing is traced or timed; and once
    the frames are sampled the run prints that it quits and returns. *)
Theorem zero_trials_quit args config dataset w :
  arg_n args = 0%Z →
  (∃ evs, log (run_main args config dataset w).2 = log w ++ evs
        ∧ forallb is_diagnostic evs = true)
  ∧ (∀ dev datas n_atom w1,
       run_load args config dataset w = (Ok (dev, datas, n_atom), w1) →
       run_main args config dataset w
       = (Ok tt, World (dicts w1) (tensors w1) (cursor w1) (step_num w1) (tmpfile w1)
                   (log w1 ++ [Printed MsgQuitting]))).
Proof.
  intros Hn. split.
  - destruct (load_and_sample_quiet args config dataset w) as (evs & Hlog & Hevs).
    unfold main. rewrite run_bind.
    destruct (run_load args config dataset w) as [[[[dev datas] n_atom]|e] w1].
    + rewrite bool_decide_true by done. cbn in *. rewrite Hlog, <- app_assoc.
      eexists. split; [reflexivity|]. rewrite forallb_app, Hevs. done.
    + by exists evs.
  - intros dev datas n_atom w1 Hload.
    rewrite (main_after_sampling _ _ _ _ _ _ _ _ Hload).
    by rewrite bool_decide_true.
Qed.

(** C2, as amended.  Every retrieval hands the model a new dictionary, a
    copy of the next pool frame in round-robin order, and the pool's own
    dictionaries are never changed by a run.  The copy is shallow: it
    shares its tensors with the pool.  So if the model only mutates the
    mapping (binds or drops fields), every retrieval sees exactly the
    contents of the sampled frame. *)
Theorem pool_copies_are_shallow args config dataset w dev datas n_atom w1 :
  run_load args config dataset w = (Ok (dev, datas, n_atom), w1) →
  ∃ frames evs,
    mapM (dataset !!.) (sampled_indices randperm config (length dataset) (arg_n_data args))
      = Some frames
    ∧ log (run_main args config dataset w).2 = log w1 ++ evs
    ∧ (∀ d, d ∈ datas → dicts (run_main args config dataset w).2 !! d = dicts w1 !! d)
    ∧ (∀ i c, calls evs !! i = Some c →
         datas !! (i mod length datas) = Some (c_frame c)
         ∧ (c_arg c ∉ datas)
         ∧ ∃ f, frames !! (i mod length frames) = Some f
              ∧ (mapping_only model → c_seen c = frame_fields f)).
Proof.
  intros Hload.
  destruct (load_and_sample_ok _ _ _ _ _ _ _ _ _ _ Hload)
    as (_ & Hcur1 & _ & frames & Hidx & Hv & Hall).
  destruct (main_driver_inv _ _ _ _ _ _ _ _ Hload)
    as (Hd & _ & (evs & Hlog & Hcur & Hcalls & Hseen) & _).
  assert (∀ d, d ∈ datas → d < length (dicts w1)) as Hvalid.
  { intros d [j Hj]%list_elem_of_lookup.
    destruct (Forall2_lookup_l _ _ _ _ _ Hall Hj) as (f & _ & dd & Hdd & _).
    by eapply lookup_lt_Some. }
  exists frames, evs. split_and!; [done|done| |].
  - intros d Hin. apply Hd. by apply Hvalid.
  - intros i c Hc. destruct (Hcalls i c Hc) as (_ & Hframe & Harg).
    rewrite Hcur1 in Hframe. cbn in Hframe. split_and!; [done| |].
    + intros Hin%Hvalid. lia.
    + destruct (Forall2_lookup_l _ _ _ _ _ Hall Hframe) as (f & Hf & dd & Hdd & _ & Hview).
      exists f. rewrite <- (Forall2_length _ _ _ Hall). split; [done|].
      intros Hmo. specialize (Hseen Hmo). rewrite Forall_forall in Hseen.
      destruct (Hseen c) as (dd' & Hdd' & ->).
      { by eapply list_elem_of_lookup_2. }
      congruence.
Qed.

(** C3.  On the compiled path the preparer scripts the model, compiles it
    for deployment, saves and reloads it onto the device, freezes it,
    and saves and reloads it once more: two round trips around the
    freeze.  Every call of the run is then made on that model. *)
Theorem compiled_path_two_round_trips args dev w :
  arg_no_compile args = false →
  model_preparer args dev w
  = (Ok (Loaded (Frozen (Loaded (Deployed (Scripted FromConfig)) dev)) dev),
     World (dicts w) (tensors w) (cursor w) (step_num w) None
       (log w ++ [Printed MsgBuildingModel; ModelFromConfig; Printed MsgModelTime;
                  Printed MsgWeights; Printed MsgTrainableWeights; ModelEval;
                  Printed MsgCompile; Script; CompileForDeploy; Printed MsgCompileTime;
                  JitSave; JitLoad dev; JitFreeze; JitSave; JitLoad dev]))
  ∧ (∀ config dataset w0 datas n_atom w1,
       run_load args config dataset w0 = (Ok (dev, datas, n_atom), w1) →
       ∃ evs, log (run_main args config dataset w0).2 = log w1 ++ evs
            ∧ ∀ c, c ∈ calls evs →
                c_model c = Loaded (Frozen (Loaded (Deployed (Scripted FromConfig)) dev)) dev).
Proof.
  intros Hc. split.
  - rewrite model_preparer_run. unfold prepared_model, preparer_events. by rewrite Hc.
  - intros config dataset w0 datas n_atom w1 Hload.
    destruct (main_driver_inv _ _ _ _ _ _ _ _ Hload)
      as (_ & _ & (evs & Hlog & _ & Hcalls & _) & _).
    exists evs. split; [done|]. intros c [i Hi]%list_elem_of_lookup.
    destruct (Hcalls i c Hi) as (-> & _). unfold prepared_model. by rewrite Hc.
Qed.

Lemma calls_cons e evs :
  calls (e :: evs) = match e with ModelCall c => c :: calls evs | _ => calls evs end.
Proof. by destruct e. Qed.

Lemma calls_erase evs : length (calls (erase <$> evs)) = length (calls evs).
Proof.
  induction evs as [|e evs IH]; [done|].
  rewrite fmap_cons, !calls_cons. destruct e; cbn [erase length]; by rewrite ?IH.
Qed.

Lemma calls_step_events k : length (calls (concat (replicate k step_events))) = k.
Proof.
  induction k as [|k IH]; [done|].
  cbn [replicate concat step_events app]. rewrite !calls_cons. cbn [length].
  by rewrite IH.
Qed.

(** C5.  In tracing mode with [n > 0] trials and a warmup depth
    [w >= 0], the run opens one session scheduled as wait 1, warmup [w],
    active [n], repeat 1, makes [1 + w + n] model calls inside it, each
    followed by a step of the schedule, exports one trace to the
    requested path, and prints no timing figure. *)
Theorem tracing_session args config dataset w dev datas n_atom w1 path depth :
  run_load args config dataset w = (Ok (dev, datas, n_atom), w1) →
  arg_profile args = Some path →
  (0 < arg_n args)%Z →
  config !! "_jit_bailout_depth" = Some depth →
  (0 ≤ depth + 4)%Z →
  ∃ evs w',
    run_main args config dataset w = (Ok tt, w')
    ∧ log w' = log w1 ++ preparer_events args dev ++ evs
    ∧ erase <$> evs
      = [Printed MsgStarting; ProfilerSchedule 1 (depth + 4) (arg_n args) 1;
         ProfilerEnter ([CPU] ++ (if bool_decide (device_type dev = "cuda") then [CUDA] else []))]
        ++ concat (replicate (Z.to_nat (1 + (depth + 4) + arg_n args))
                     [ModelCall blank_call; ProfilerStep])
        ++ [ExportChromeTrace path; Printed (MsgWroteTrace path); ProfilerExit]
    ∧ Z.of_nat (length (calls evs)) = (1 + (depth + 4) + arg_n args)%Z.
Proof.
  intros Hload Hprof Hn Hdepth Hw.
  destruct (prepared_inv _ _ _ _ _ _ _ _ Hload) as [Hpool Hinv2].
  destruct (tracing_run model (prepared_model args dev) datas w1 Hpool path
              (depth + 4)%Z (arg_n args) Hw Hn dev _ Hinv2)
    as (evs & w' & Hrun & Hlog & Her & _).
  exists evs, w'. split_and!; [| |done|].
  - rewrite (main_after_sampling _ _ _ _ _ _ _ _ Hload).
    rewrite bool_decide_false by lia.
    rewrite run_bind, model_preparer_run. cbn beta iota.
    rewrite run_bind. unfold warmup_depth, config_getitem. rewrite Hdepth.
    run. by rewrite Hprof.
  - rewrite Hlog. cbn. by rewrite <- app_assoc.
  - rewrite <- calls_erase, Her, !calls_app, !length_app.
    fold step_events. rewrite calls_step_events. cbn. lia.
Qed.

(** C6.  The number of warmup iterations is the configured bailout depth
    plus 4.  In timing mode the warmup phase makes exactly that many
    model calls, each on the next frame of the cyclic pool, and it is
    over before the timer starts. *)
Theorem warmup_phase args config dataset w dev datas n_atom w1 depth :
  run_load args config dataset w = (Ok (dev, datas, n_atom), w1) →
  arg_profile args = None →
  arg_n args ≠ 0%Z →
  config !! "_jit_bailout_depth" = Some depth →
  (0 ≤ depth + 4)%Z →
  warmup_depth config w1 = (Ok (depth + 4)%Z, w1)
  ∧ ∃ warm meas w',
      run_main args config dataset w = (metrics_result timer_reading select_unit args n_atom, w')
      ∧ log w' = log w1 ++ preparer_events args dev
                 ++ [Printed MsgWarmup] ++ (ModelCall <$> warm)
                 ++ [Printed (MsgWarmupTime (depth + 4)); Printed MsgStarting;
                     TimerTimeit (arg_n args)]
                 ++ (ModelCall <$> meas) ++ [TimerDone]
                 ++ metrics_events timer_reading select_unit args n_atom
      ∧ Z.of_nat (length warm) = (depth + 4)%Z
      ∧ (∀ i c, warm !! i = Some c → datas !! (i mod length datas) = Some (c_frame c))
      ∧ length meas = timeit_runs (arg_n args).
Proof.
  intros Hload Hprof Hn Hdepth Hw. split.
  { unfold warmup_depth, config_getitem. by rewrite Hdepth. }
  destruct (load_and_sample_ok _ _ _ _ _ _ _ _ _ _ Hload) as (_ & Hcur1 & _).
  destruct (prepared_inv _ _ _ _ _ _ _ _ Hload) as [Hpool Hinv2].
  destruct (timing_run model (prepared_model args dev) datas w1 Hpool (depth + 4)%Z
              timeit_runs timer_reading select_unit args n_atom _ Hinv2)
    as (warm & meas & w' & Hrun & Hlog & Hlenw & Hlenm & _ & Hrr).
  exists warm, meas, w'. split_and!; [| | |  |done].
  - rewrite (main_after_sampling _ _ _ _ _ _ _ _ Hload).
    rewrite bool_decide_false by done.
    rewrite run_bind, model_preparer_run. cbn beta iota.
    rewrite run_bind. unfold warmup_depth, config_getitem. rewrite Hdepth.
    run. by rewrite Hprof.
  - rewrite Hlog. cbn. by rewrite <- app_assoc.
  - lia.
  - intros i c Hi. apply Hrr in Hi. cbn in Hi. by rewrite Hcur1 in Hi.
Qed.

(** C7.  The atom count of the first sampled frame is the reference.
    If some other sampled frame has a different atom count, the sampler,
    and with it the run, ends with the named [NotImplementedError]; if
    all have the same count, the sampler returns the pool and that
    count. *)
Theorem variable_atoms_rejected args config dataset w f0 rest :
  mapM (dataset !!.) (sampled_indices randperm config (length dataset) (arg_n_data args))
    = Some (f0 :: rest) →
  (Exists (λ f, length (ad_pos f) ≠ length (ad_pos f0)) rest →
     (frame_sampler randperm args config dataset w).1
       = Raise (NotImplementedError variable_atoms_msg)
     ∧ (run_main args config dataset w).1
       = Raise (NotImplementedError variable_atoms_msg))
  ∧ (Forall (λ f, length (ad_pos f) = length (ad_pos f0)) rest →
     ∃ datas, (frame_sampler randperm args config dataset w).1
              = Ok (datas, length (ad_pos f0))).
Proof.
  intros Hidx.
  assert (uniform_atoms (length (ad_pos f0)) (f0 :: rest)
          = forallb (λ f, bool_decide (length (ad_pos f) = length (ad_pos f0))) rest) as Hu.
  { unfold uniform_atoms. cbn [forallb]. by rewrite bool_decide_true. }
  split.
  - intros Hex.
    assert (uniform_atoms (length (ad_pos f0)) (f0 :: rest) = false) as Hfalse.
    { rewrite Hu. apply not_true_is_false. intros Hall.
      rewrite forallb_forall in Hall. apply Exists_exists in Hex as (f & Hin & Hne).
      apply list_elem_of_In, Hall, bool_decide_eq_true in Hin. done. }
    assert (∀ w0, (frame_sampler randperm args config dataset w0).1
                  = Raise (NotImplementedError variable_atoms_msg)) as Hraise.
    { intros w0.
      destruct (frame_sampler_run randperm dataset args config _ w0 Hidx)
        as (datas & w' & Hrun & _).
      rewrite Hrun. unfold sampler_verdict. by rewrite Hfalse. }
    split; [apply Hraise|].
    unfold main. rewrite run_bind, load_and_sample_run, run_bind.
    match goal with |- context [frame_sampler _ _ _ _ ?x] =>
      specialize (Hraise x); destruct (frame_sampler randperm args config dataset x)
        as [r wr] end.
    cbn in Hraise. by subst r.
  - intros Hall.
    destruct (frame_sampler_run randperm dataset args config _ w Hidx)
      as (datas & w' & Hrun & _).
    exists datas. rewrite Hrun. unfold sampler_verdict. rewrite Hu.
    replace (forallb _ rest) with true; [done|]. symmetry.
    apply forallb_forall. intros f Hin. apply bool_decide_eq_true.
    rewrite Forall_forall in Hall. by apply Hall, list_elem_of_In.
Qed.

Lemma slice_to_nonneg {A} (k : Z) (xs : list A) :
  (0 ≤ k)%Z → slice_to k xs = take (Z.to_nat k `min` length xs) xs.
Proof.
  intros Hk. unfold slice_to. destruct (Z.leb_spec 0 k); [|lia].
  destruct (decide (Z.to_nat k ≤ length xs)).
  - by rewrite Nat.min_l.
  - rewrite Nat.min_r by lia. by rewrite !take_ge by lia.
Qed.

(** C1, as amended.  For a sample count [n_data >= 0] the sampler takes
    the first [min n_data N] indices of the seeded permutation of
    [0, N): a count above [N] is clamped by the slice and is no error.
    The frames at these indices are loaded without a trace event, so
    before any model construction, and the sampler's answer is the
    verdict on their atom counts. *)
Theorem sample_count_is_clamped args config dataset w :
  randperm (dataset_seed config) (length dataset) ≡ₚ seq 0 (length dataset) →
  (0 ≤ arg_n_data args)%Z →
  sampled_indices randperm config (length dataset) (arg_n_data args)
    = take (Z.to_nat (arg_n_data args) `min` length dataset)
           (randperm (dataset_seed config) (length dataset))
  ∧ length (sampled_indices randperm config (length dataset) (arg_n_data args))
    = Z.to_nat (arg_n_data args) `min` length dataset
  ∧ ∃ frames datas w',
      mapM (dataset !!.) (sampled_indices randperm config (length dataset) (arg_n_data args))
        = Some frames
      ∧ frame_sampler randperm args config dataset w = (sampler_verdict datas frames, w')
      ∧ log w' = log w
      ∧ Forall2 (frame_at w') datas frames.
Proof.
  intros Hperm Hk.
  assert (length (randperm (dataset_seed config) (length dataset)) = length dataset) as Hlen.
  { rewrite (Permutation_length Hperm). apply length_seq. }
  assert (sampled_indices randperm config (length dataset) (arg_n_data args)
          = take (Z.to_nat (arg_n_data args) `min` length dataset)
                 (randperm (dataset_seed config) (length dataset))) as Hidx.
  { unfold sampled_indices. rewrite slice_to_nonneg by done. by rewrite Hlen. }
  split_and!; [done| |].
  - rewrite Hidx, length_take, Hlen. lia.
  - destruct (mapM (dataset !!.)
                (sampled_indices randperm config (length dataset) (arg_n_data args)))
      as [frames|] eqn:Hm.
    + destruct (frame_sampler_run randperm dataset args config frames w Hm)
        as (datas & w' & Hrun & Hg & Hall).
      exists frames, datas, w'. split_and!; [done..| |done].
      by destruct Hg as (_ & _ & _ & _ & _ & ?).
    + exfalso. apply eq_None_not_Some in Hm. apply Hm. apply mapM_is_Some.
      apply Forall_forall. intros i Hi. rewrite Hidx in Hi.
      apply elem_of_take in Hi as (j & Hj%list_elem_of_lookup_2 & _).
      rewrite Hperm in Hj. apply elem_of_seq in Hj.
      apply lookup_lt_is_Some. lia.
Qed.

Lemma sampler_outcome_run args config dataset frames w :
  mapM (dataset !!.) (sampled_indices randperm config (length dataset) (arg_n_data args))
    = Some frames →
  sampler_outcome (frame_sampler randperm args config dataset w)
  = match sampler_verdict [] frames with
    | Ok (_, n_atom) => Ok ((Some ∘ frame_fields) <$> frames, n_atom)
    | Raise e => Raise e
    end.
Proof.
  intros Hm.
  destruct (frame_sampler_run randperm dataset args config frames w Hm)
    as (datas & w' & Hrun & _ & Hall).
  rewrite Hrun. unfold sampler_verdict. destruct frames as [|f0 rest]; [done|].
  destruct (uniform_atoms _ _); [|done]. cbn [sampler_outcome]. f_equal. f_equal.
  clear Hrun Hm. induction Hall as [|d f datas frames (dd & Hdd & _ & Hv) _ IH]; [done|].
  rewrite !fmap_cons, IH. f_equal. rewrite Hdd. cbn. by rewrite Hv.
Qed.

(** C8.  Two runs over the same dataset whose configurations resolve to
    the same seed and which ask for the same [n_data] sample the same
    indices in the same order, and load the same frames, whatever else
    differs between them. *)
Theorem frame_selection_deterministic args1 args2 config1 config2 dataset w1 w2 :
  dataset_seed config1 = dataset_seed config2 →
  arg_n_data args1 = arg_n_data args2 →
  sampled_indices randperm config1 (length dataset) (arg_n_data args1)
    = sampled_indices randperm config2 (length dataset) (arg_n_data args2)
  ∧ sampler_outcome (frame_sampler randperm args1 config1 dataset w1)
    = sampler_outcome (frame_sampler randperm args2 config2 dataset w2).
Proof.
  intros Hseed Hn.
  assert (sampled_indices randperm config1 (length dataset) (arg_n_data args1)
          = sampled_indices randperm config2 (length dataset) (arg_n_data args2)) as Hidx.
  { unfold sampled_indices. by rewrite Hseed, Hn. }
  split; [done|].
  destruct (mapM (dataset !!.)
              (sampled_indices randperm config1 (length dataset) (arg_n_data args1)))
    as [frames|] eqn:Hm.
  - rewrite (sampler_outcome_run args1 config1 dataset frames w1 Hm).
    rewrite Hidx in Hm.
    by rewrite (sampler_outcome_run args2 config2 dataset frames w2 Hm).
  - destruct (frame_sampler_fail randperm dataset args1 config1 w1 Hm) as (wa & -> & _).
    rewrite Hidx in Hm.
    by destruct (frame_sampler_fail randperm dataset args2 config2 w2 Hm) as (wb & -> & _).
Qed.

(** C10.  The seed of the sampling generator is the configured
    [dataset_seed] if there is one, else the configured [seed], else
    12345; the sampled indices are the slice of the permutation drawn
    from that seed for the dataset's length, and the pool the sampler
    returns holds the dataset's frames at these indices, in order. *)
Theorem seed_fallback_chain args config dataset w :
  dataset_seed config
  = match config !! "dataset_seed" with
    | Some v => v
    | None => match config !! "seed" with
              | Some v => v
              | None => 12345%Z
              end
    end
  ∧ sampled_indices randperm config (length dataset) (arg_n_data args)
    = slice_to (arg_n_data args) (randperm (dataset_seed config) (length dataset))
  ∧ ∀ datas n_atom w',
      frame_sampler randperm args config dataset w = (Ok (datas, n_atom), w') →
      ∃ frames,
        mapM (dataset !!.)
             (slice_to (arg_n_data args) (randperm (dataset_seed config) (length dataset)))
          = Some frames
        ∧ Forall2 (frame_at w') datas frames.
Proof.
  split_and!.
  - unfold dataset_seed, config_get.
    destruct (config !! "dataset_seed"); [done|]. by destruct (config !! "seed").
  - done.
  - intros datas n_atom w' Hrun. fold (sampled_indices randperm config (length dataset) (arg_n_data args)).
    destruct (mapM (dataset !!.)
                (sampled_indices randperm config (length dataset) (arg_n_data args)))
      as [frames|] eqn:Hm.
    + destruct (frame_sampler_run randperm dataset args config frames w Hm)
        as (datas0 & w0 & Hrun0 & _ & Hall).
      rewrite Hrun in Hrun0. exists frames. split; [done|].
      unfold sampler_verdict in Hrun0. destruct frames; [done|].
      destruct (uniform_atoms _ _); [|done]. by injection Hrun0 as -> _ ->.
    + destruct (frame_sampler_fail randperm dataset args config w Hm) as (w0 & Hrun0 & _).
      congruence.
Qed.
End Claims.


(** * Further properties of the script *)

(** ** The slice of the permutation *)

Lemma slice_to_take {A} (k : Z) (xs : list A) : ∃ j, slice_to k xs = take j xs.
Proof. unfold slice_to. destruct (0 <=? k)%Z; eauto. Qed.


Lemma slice_to_all {A} (k : Z) (xs : list A) :
  (Z.of_nat (length xs) ≤ k)%Z → slice_to k xs = xs.
Proof.
  intros Hk. unfold slice_to. destruct (Z.leb_spec 0 k) as [_|]; [|lia].
  apply take_ge. lia.
Qed.

(** ** Counting *)

Lemma sum_list_zero {A} (l : list A) : sum_list (map (λ _, 0) l) = 0.
Proof. induction l; cbn; lia. Qed.

Lemma sum_list_add {A} (f g : A → nat) l :
  sum_list (map (λ b, f b + g b) l) = sum_list (map f l) + sum_list (map g l).
Proof. induction l; cbn; lia. Qed.

Lemma sum_indicator (x : Z) s m :
  sum_list (map (λ b, if decide (x = Z.of_nat b) then 1 else 0) (seq s m))
  = if bool_decide (Z.of_nat s ≤ x < Z.of_nat (s + m))%Z then 1 else 0.
Proof.
  revert s. induction m as [|m IH]; intros s; cbn.
  - rewrite bool_decide_false by lia. done.
  - rewrite IH. repeat case_decide; repeat case_bool_decide; lia.
Qed.

Lemma count_bins_sum (xs : list Z) m :
  Forall (λ x, (0 ≤ x < Z.of_nat m)%Z) xs →
  sum_list (map (λ b, length (filter (λ x, x = Z.of_nat b) xs)) (seq 0 m)) = length xs.
Proof.
  induction 1 as [|x xs Hx _ IH]; cbn [length].
  - apply sum_list_zero.
  - rewrite <- IH.
    rewrite (map_ext _ (λ b, (if decide (x = Z.of_nat b) then 1 else 0)
                              + length (filter (λ y, y = Z.of_nat b) xs))).
    2:{ intros b. rewrite filter_cons. by case_decide. }
    rewrite sum_list_add, sum_indicator. rewrite bool_decide_true by lia. done.
Qed.

Lemma bincount_in_range (xs : list Z) m :
  Forall (λ x, (0 ≤ x < Z.of_nat m)%Z) xs →
  ∃ counts, bincount xs m = Ok counts ∧ length counts = m ∧ sum_list counts = length xs.
Proof.
  intros Hxs. unfold bincount.
  assert (forallb (λ x, (0 <=? x)%Z) xs = true) as ->.
  { induction Hxs as [|x xs' Hx _ IH]; cbn; [done|]. rewrite IH.
    destruct (Z.leb_spec 0 x); [done|lia]. }
  assert (foldr (λ x acc, max (S (Z.to_nat x)) acc) 0 xs ≤ m) as Hmax.
  { induction Hxs; cbn; lia. }
  rewrite Nat.max_l by done.
  eexists. split_and!; [done| |].
  - by rewrite length_map, length_seq.
  - by apply count_bins_sum.
Qed.

(** ** The dataset diagnostics *)

Lemma frame_at_edge_index w d f :
  frame_at w d f →
  ∃ dd a, dicts w !! d = Some dd ∧ dd !! EDGE_INDEX_KEY = Some a
        ∧ tensors w !! a = Some (ad_edge_index f).
Proof.
  intros (dd & Hdd & _ & Hv).
  assert (view_of w dd !! EDGE_INDEX_KEY = Some (ad_edge_index f)) as He.
  { rewrite Hv. unfold frame_fields, POSITIONS_KEY, EDGE_INDEX_KEY.
    rewrite lookup_insert_ne by done. by rewrite lookup_insert_eq. }
  rewrite view_of_lookup in He.
  destruct (dd !! EDGE_INDEX_KEY) as [a|] eqn:Ha; [|done]. by exists dd, a.
Qed.

Lemma num_edges_run w d f :
  frame_at w d f → num_edges d w = (Ok (edge_count f), w).
Proof.
  intros (dd & a & Hdd & Ha & Ht)%frame_at_edge_index.
  unfold num_edges. rewrite run_bind, (dict_getitem_run _ _ _ _ _ Hdd Ha).
  by rewrite run_bind, (get_tensor_run _ _ _ Ht).
Qed.

Lemma neighbor_counts_run w d f :
  frame_at w d f → edges_in_range f = true →
  ∃ counts, neighbor_counts d w = (Ok counts, w)
          ∧ length counts = length (ad_pos f) ∧ sum_list counts = edge_count f.
Proof.
  intros Hat Hin.
  destruct (frame_at_edge_index _ _ _ Hat) as (dd & a & Hdd & Ha & Ht).
  destruct Hat as (dd' & Hdd' & _ & Hv).
  assert (dd' = dd) as -> by congruence.
  assert (view_of w dd !! POSITIONS_KEY = Some (ad_pos f)) as Hpos.
  { rewrite Hv. unfold frame_fields. by rewrite lookup_insert_eq. }
  rewrite view_of_lookup in Hpos.
  destruct (dd !! POSITIONS_KEY) as [p|] eqn:Hp; [|done]. cbn in Hpos.
  unfold edges_in_range, edge_count, shape1 in *.
  destruct (ad_edge_index f) as [|senders rest]; [done|]. cbn [head default].
  destruct (bincount_in_range senders (length (ad_pos f))) as (counts & Hb & Hlen & Hsum).
  { apply Forall_forall. intros x Hx.
    rewrite forallb_forall in Hin. apply list_elem_of_In in Hx. apply Hin in Hx. lia. }
  exists counts. split_and!; [|done..].
  unfold neighbor_counts. rewrite run_bind, (dict_getitem_run _ _ _ _ _ Hdd Ha).
  rewrite run_bind, (get_tensor_run _ _ _ Ht). rewrite run_bind, run_ret.
  rewrite run_bind, (dict_getitem_run _ _ _ _ _ Hdd Hp).
  rewrite run_bind, (get_tensor_run _ _ _ Hpos). unfold lift. by rewrite Hb.
Qed.

Lemma mapM_frames {B} (g : loc → M B) (P : AtomicData → B → Prop) w datas frames :
  Forall2 (λ d f, ∃ b, g d w = (Ok b, w) ∧ P f b) datas frames →
  ∃ bs, mapM g datas w = (Ok bs, w) ∧ Forall2 P frames bs.
Proof.
  induction 1 as [|d f datas frames (b & Hg & HP) _ (bs & Hrun & Hall)].
  - by exists [].
  - exists (b :: bs). split; [|by constructor].
    cbn [mapM]. by rewrite run_bind, Hg, run_bind, Hrun.
Qed.

Lemma bins_total n frames (bs : list (list nat)) :
  Forall2 (λ f b, length b = length (ad_pos f) ∧ sum_list b = edge_count f) frames bs →
  uniform_atoms n frames = true →
  sum_list (concat bs) = sum_list (edge_count <$> frames)
  ∧ length (concat bs) = length frames * n.
Proof.
  induction 1 as [|f b frames bs [Hlen Hsum] _ IH]; [done|].
  cbn [uniform_atoms forallb]. intros [Hn Hu]%andb_true_iff.
  apply bool_decide_eq_true in Hn. destruct (IH Hu) as [IH1 IH2].
  cbn. rewrite sum_list_with_app, length_app. split; lia.
Qed.

Lemma num_edges_all w datas frames :
  Forall2 (frame_at w) datas frames →
  mapM num_edges datas w = (Ok (edge_count <$> frames), w).
Proof.
  induction 1 as [|d f datas frames Hat _ IH]; [done|].
  cbn [mapM]. rewrite run_bind, (num_edges_run _ _ f) by done.
  by rewrite run_bind, IH.
Qed.

Lemma neighbor_counts_all w datas frames :
  Forall2 (frame_at w) datas frames →
  forallb edges_in_range frames = true →
  ∃ bs, mapM neighbor_counts datas w = (Ok bs, w)
      ∧ Forall2 (λ f b, length b = length (ad_pos f) ∧ sum_list b = edge_count f) frames bs.
Proof.
  intros Hall Hin. apply mapM_frames.
  induction Hall as [|d f datas frames Hat _ IH]; constructor.
  - apply neighbor_counts_run; [done|]. by apply andb_true_iff in Hin as [? _].
  - apply IH. by apply andb_true_iff in Hin as [_ ?].
Qed.

Lemma report_statistics_run args dataset datas frames n_atom w :
  Forall2 (frame_at w) datas frames →
  uniform_atoms n_atom frames = true →
  forallb edges_in_range frames = true →
  report_statistics args dataset datas n_atom w
  = (Ok tt, World (dicts w) (tensors w) (cursor w) (step_num w) (tmpfile w)
              (log w ++ statistics_events args dataset frames n_atom)).
Proof.
  intros Hall Hu Hin.
  set (wa := World (dicts w) (tensors w) (cursor w) (step_num w) (tmpfile w)
               (log w ++ [Printed (MsgLoaded (length dataset) (arg_n_data args));
                          Printed MsgFrameStatistics; Printed (MsgNumAtoms n_atom);
                          Printed MsgNumTypes])).
  set (wb := World (dicts w) (tensors w) (cursor w) (step_num w) (tmpfile w)
               (log wa ++ [Printed (MsgAvgNumEdges (sum_list (edge_count <$> frames))
                                      (length datas))])).
  assert (Forall2 (frame_at wa) datas frames) as Halla.
  { eapply Forall2_impl; [exact Hall|]. intros d f. by apply frame_at_same. }
  assert (Forall2 (frame_at wb) datas frames) as Hallb.
  { eapply Forall2_impl; [exact Hall|]. intros d f. by apply frame_at_same. }
  destruct (neighbor_counts_all wb datas frames Hallb Hin) as (bs & Hbins & Hbs).
  destruct (bins_total _ _ _ Hbs Hu) as [Hsum Hlen].
  transitivity ((edges ← mapM num_edges datas;
                 print (MsgAvgNumEdges (sum_list edges) (length datas));;
                 counts ← mapM neighbor_counts datas;
                 print (MsgAvgNeighPerAtom (sum_list (concat counts))
                          (length (concat counts)))) wa).
  { subst wa. rewrite <- foldl_snoc. reflexivity. }
  rewrite run_bind, (num_edges_all _ _ _ Halla).
  rewrite run_bind.
  change (print (MsgAvgNumEdges (sum_list (edge_count <$> frames)) (length datas)) wa)
    with (Ok tt, wb).
  cbn beta iota. rewrite run_bind, Hbins. unfold print, emit, add_log. cbn.
  rewrite Hsum, Hlen.
  rewrite (Forall2_length _ _ _ Hall). by rewrite <- !app_assoc.
Qed.

Section Coverage.
Variable cuda_is_available : bool.
Variable randperm : Z → nat → list nat.
Variable model : model_form → gmap string tensor → list mutation.
Variable timeit_runs : Z → nat.
Variable timer_reading : result float.
Variable select_unit : float → result unit.

Local Abbreviation run_main :=
  (main cuda_is_available randperm model timeit_runs timer_reading select_unit).
Local Abbreviation run_load := (load_and_sample cuda_is_available randperm).

(** The run of [main] past the sampler and the preparer, when trials are
    asked for. *)
Lemma main_after_preparer args config dataset w dev datas n_atom w1 :
  run_load args config dataset w = (Ok (dev, datas, n_atom), w1) →
  arg_n args ≠ 0%Z →
  run_main args config dataset w
  = (warmup ← warmup_depth config;
     match arg_profile args with
     | Some path => tracing model path dev warmup (arg_n args) (prepared_model args dev) datas
     | None => timing model timeit_runs timer_reading select_unit args warmup n_atom
                 (prepared_model args dev) datas
     end)
      (World (dicts w1) (tensors w1) (cursor w1) (step_num w1)
         (if arg_no_compile args then tmpfile w1 else None)
         (log w1 ++ preparer_events args dev)).
Proof.
  intros Hload Hn. rewrite (main_after_sampling _ _ _ _ _ _ _ _ _ _ _ _ _ _ Hload).
  rewrite bool_decide_false by done.
  by rewrite run_bind, model_preparer_run.
Qed.

Lemma randperm_length config (dataset : list AtomicData) :
  randperm (dataset_seed config) (length dataset) ≡ₚ seq 0 (length dataset) →
  length (randperm (dataset_seed config) (length dataset)) = length dataset.
Proof. intros Hperm. rewrite (Permutation_length Hperm). apply length_seq. Qed.


(** X1.  Sampling is without replacement and within the dataset: for any
    sample count the sampled indices are pairwise distinct and below the
    dataset's length, so indexing the dataset with them cannot fail; and
    a count of at least the dataset's length samples every frame of the
    dataset exactly once. *)
Theorem sample_has_no_repeats args config (dataset : list AtomicData) :
  randperm (dataset_seed config) (length dataset) ≡ₚ seq 0 (length dataset) →
  NoDup (sampled_indices randperm config (length dataset) (arg_n_data args))
  ∧ Forall (λ i, i < length dataset)
      (sampled_indices randperm config (length dataset) (arg_n_data args))
  ∧ is_Some (mapM (dataset !!.)
               (sampled_indices randperm config (length dataset) (arg_n_data args)))
  ∧ ((Z.of_nat (length dataset) ≤ arg_n_data args)%Z →
     sampled_indices randperm config (length dataset) (arg_n_data args)
       ≡ₚ seq 0 (length dataset)).
Proof.
  intros Hperm. pose proof (randperm_length _ _ Hperm) as Hlen.
  unfold sampled_indices.
  destruct (slice_to_take (arg_n_data args) (randperm (dataset_seed config) (length dataset)))
    as [j Hj].
  assert (Forall (λ i, i < length dataset)
            (take j (randperm (dataset_seed config) (length dataset)))) as Hin.
  { apply Forall_take, Forall_forall. intros i Hi. rewrite Hperm in Hi.
    apply elem_of_seq in Hi. lia. }
  split_and!.
  - rewrite Hj. eapply sublist_NoDup; [|apply sublist_take]. rewrite Hperm. apply NoDup_seq.
  - by rewrite Hj.
  - rewrite Hj. apply mapM_is_Some. eapply Forall_impl; [exact Hin|].
    intros i Hi. by apply lookup_lt_is_Some.
  - intros Hall. rewrite slice_to_all by lia. done.
Qed.


(** X3.  An empty sample ([--n-data 0], an empty dataset, or a negative
    count that leaves nothing) ends the run with the [IndexError] of
    [datas[0]], right after the dataset was loaded: no frame is
    allocated, no statistics are printed, no model is built. *)
Theorem empty_sample_is_index_error args config dataset w :
  sampled_indices randperm config (length dataset) (arg_n_data args) = [] →
  run_main args config dataset w
  = (Raise IndexError,
     World (dicts w) (tensors w) (cursor w) (step_num w) (tmpfile w)
       (log w ++ startup_events cuda_is_available args)).
Proof.
  intros Hidx. unfold main. rewrite run_bind, load_and_sample_run.
  rewrite run_bind. unfold frame_sampler. rewrite Hidx. reflexivity.
Qed.

(** X4.  For a sample of frames with one atom count, whose edges all
    start at an atom of their frame, loading succeeds and the
    diagnostics report: the atom count of the first frame; as average
    number of edges the edges of all frames over the number of frames;
    and as average neighbours per atom the same total of edges over
    frames times atoms. *)
Theorem dataset_statistics args config dataset w frames f0 :
  mapM (dataset !!.) (sampled_indices randperm config (length dataset) (arg_n_data args))
    = Some frames →
  head frames = Some f0 →
  uniform_atoms (length (ad_pos f0)) frames = true →
  forallb edges_in_range frames = true →
  ∃ datas w1,
    run_load args config dataset w
    = (Ok (select_device cuda_is_available args, datas, length (ad_pos f0)), w1)
    ∧ length datas = length frames
    ∧ log w1 = log w ++ startup_events cuda_is_available args
               ++ statistics_events args dataset frames (length (ad_pos f0)).
Proof.
  intros Hm Hhd Hu Hin.
  rewrite load_and_sample_run. set (wp := World _ _ _ _ _ _).
  destruct (frame_sampler_run randperm dataset args config frames wp Hm)
    as (datas & ws & Hrun & Hg & Hall).
  destruct Hg as (_ & _ & _ & _ & _ & Hlog).
  destruct frames as [|f frames]; [done|]. injection Hhd as ->.
  unfold sampler_verdict in Hrun. rewrite Hu in Hrun.
  eexists datas, _. split_and!.
  - rewrite run_bind, Hrun. cbn beta iota.
    rewrite run_bind, (report_statistics_run _ _ _ _ _ _ Hall Hu Hin).
    reflexivity.
  - by eapply Forall2_length.
  - cbn. rewrite Hlog. subst wp. cbn. by rewrite <- app_assoc.
Qed.

(** X6.  With [--no-compile] the preparer builds the model, puts it in
    evaluation mode and moves it to the device, and that is all: the
    model is not scripted, compiled, saved, loaded or frozen, and no
    temporary file is touched.  Every call of the run is then made on
    that model. *)
Theorem uncompiled_path_moves_to_device args dev w :
  arg_no_compile args = true →
  model_preparer args dev w
  = (Ok (OnDevice FromConfig dev),
     World (dicts w) (tensors w) (cursor w) (step_num w) (tmpfile w)
       (log w ++ [Printed MsgBuildingModel; ModelFromConfig; Printed MsgModelTime;
                  Printed MsgWeights; Printed MsgTrainableWeights; ModelEval;
                  ModelTo dev]))
  ∧ (∀ config dataset w0 datas n_atom w1,
       run_load args config dataset w0 = (Ok (dev, datas, n_atom), w1) →
       ∃ evs, log (run_main args config dataset w0).2 = log w1 ++ evs
            ∧ ∀ c, c ∈ calls evs → c_model c = OnDevice FromConfig dev).
Proof.
  intros Hc. split.
  - rewrite model_preparer_run. unfold prepared_model, preparer_events. by rewrite Hc.
  - intros config dataset w0 datas n_atom w1 Hload.
    destruct (main_driver_inv cuda_is_available randperm model timeit_runs timer_reading select_unit
                _ _ _ _ _ _ _ _ Hload)
      as (_ & _ & (evs & Hlog & _ & Hcalls & _) & _).
    exists evs. split; [done|]. intros c [i Hi]%list_elem_of_lookup.
    destruct (Hcalls i c Hi) as (-> & _). unfold prepared_model. by rewrite Hc.
Qed.

(** X7.  A configuration without [_jit_bailout_depth] ends the run with
    a [KeyError] for that key, raised after the model was built and
    compiled and before any model call. *)
Theorem missing_bailout_depth_is_key_error args config dataset w dev datas n_atom w1 :
  run_load args config dataset w = (Ok (dev, datas, n_atom), w1) →
  arg_n args ≠ 0%Z →
  config !! "_jit_bailout_depth" = None →
  run_main args config dataset w
  = (Raise (KeyError "_jit_bailout_depth"),
     World (dicts w1) (tensors w1) (cursor w1) (step_num w1)
       (if arg_no_compile args then tmpfile w1 else None)
       (log w1 ++ preparer_events args dev))
  ∧ calls (preparer_events args dev) = [].
Proof.
  intros Hload Hn Hdepth. split.
  - rewrite (main_after_preparer _ _ _ _ _ _ _ _ Hload Hn).
    rewrite run_bind. unfold warmup_depth, config_getitem. by rewrite Hdepth.
  - unfold preparer_events. by destruct (arg_no_compile args).
Qed.

(** X8.  In tracing mode a negative trial count or a warmup depth below
    zero is refused by [torch.profiler.schedule]: the run ends with
    [AssertionError] after the model was prepared, without a model call
    and without a trace. *)
Theorem tracing_rejects_bad_schedule args config dataset w dev datas n_atom w1 path depth :
  run_load args config dataset w = (Ok (dev, datas, n_atom), w1) →
  arg_profile args = Some path →
  config !! "_jit_bailout_depth" = Some depth →
  (arg_n args < 0 ∨ (arg_n args ≠ 0 ∧ depth + 4 < 0))%Z →
  run_main args config dataset w
  = (Raise AssertionError,
     World (dicts w1) (tensors w1) (cursor w1) (step_num w1)
       (if arg_no_compile args then tmpfile w1 else None)
       (log w1 ++ preparer_events args dev ++ [Printed MsgStarting]))
  ∧ calls (preparer_events args dev ++ [Printed MsgStarting]) = [].
Proof.
  intros Hload Hprof Hdepth Hbad. split.
  - rewrite (main_after_preparer _ _ _ _ _ _ _ _ Hload) by lia.
    rewrite run_bind. unfold warmup_depth, config_getitem. rewrite Hdepth.
    run. rewrite Hprof. unfold tracing, print. run. unfold schedule.
    rewrite (bool_decide_false (0 ≤ 1 ∧ 0 ≤ depth + 4 ∧ 0 < arg_n args ∧ 0 ≤ 1)%Z) by lia.
    cbn. by rewrite <- app_assoc.
  - unfold preparer_events. by destruct (arg_no_compile args).
Qed.

(** X9.  The pool is cyclic with the number of sampled frames as its
    period: in any run, two calls that are [length datas] calls apart
    are made on copies of the same pool frame, and if the model never
    writes into a tensor they see the same contents. *)
Theorem pool_is_cyclic args config dataset w dev datas n_atom w1 :
  run_load args config dataset w = (Ok (dev, datas, n_atom), w1) →
  ∃ evs, log (run_main args config dataset w).2 = log w1 ++ evs
       ∧ ∀ i c c',
           calls evs !! i = Some c →
           calls evs !! (i + length datas) = Some c' →
           c_frame c' = c_frame c
           ∧ (mapping_only model → c_seen c' = c_seen c).
Proof.
  intros Hload.
  destruct (main_driver_inv cuda_is_available randperm model timeit_runs timer_reading select_unit
              _ _ _ _ _ _ _ _ Hload)
    as (_ & _ & (evs & Hlog & _ & Hcalls & Hseen) & _).
  exists evs. split; [done|]. intros i c c' Hi Hi'.
  destruct (Hcalls _ _ Hi) as (_ & Hf & _). destruct (Hcalls _ _ Hi') as (_ & Hf' & _).
  assert (length datas ≠ 0) as Hne.
  { intros H0. rewrite H0 in Hf. by destruct datas. }
  replace ((cursor w1 + (i + length datas)) mod length datas)
    with ((cursor w1 + i) mod length datas) in Hf'.
  2:{ replace (cursor w1 + (i + length datas)) with (cursor w1 + i + 1 * length datas) by lia.
      by rewrite Nat.Div0.mod_add. }
  assert (c_frame c' = c_frame c) as Heq by congruence.
  split; [done|]. intros Hmap. specialize (Hseen Hmap). rewrite Forall_forall in Hseen.
  destruct (Hseen c) as (dd & Hdd & ->); [by eapply list_elem_of_lookup_2|].
  destruct (Hseen c') as (dd' & Hdd' & ->); [by eapply list_elem_of_lookup_2|].
  congruence.
Qed.

(** X10.  In timing mode the timer's statement draws from the same cyclic
    pool as the warmup loop: after [max 0 (depth + 4)] warmup calls the
    measured calls go on with the next frame of the rotation, not with
    the first, and all of them are made on the prepared model. *)
Theorem timed_calls_continue_rotation args config dataset w dev datas n_atom w1 depth :
  run_load args config dataset w = (Ok (dev, datas, n_atom), w1) →
  arg_profile args = None →
  arg_n args ≠ 0%Z →
  config !! "_jit_bailout_depth" = Some depth →
  ∃ warm meas w',
    run_main args config dataset w = (metrics_result timer_reading select_unit args n_atom, w')
    ∧ log w' = log w1 ++ preparer_events args dev
               ++ [Printed MsgWarmup] ++ (ModelCall <$> warm)
               ++ [Printed (MsgWarmupTime (depth + 4)); Printed MsgStarting;
                   TimerTimeit (arg_n args)]
               ++ (ModelCall <$> meas) ++ [TimerDone]
               ++ metrics_events timer_reading select_unit args n_atom
    ∧ length warm = Z.to_nat (depth + 4)
    ∧ length meas = timeit_runs (arg_n args)
    ∧ ∀ i c, meas !! i = Some c →
        c_model c = prepared_model args dev
        ∧ datas !! ((Z.to_nat (depth + 4) + i) mod length datas) = Some (c_frame c).
Proof.
  intros Hload Hprof Hn Hdepth.
  destruct (load_and_sample_ok _ _ _ _ _ _ _ _ _ _ Hload) as (_ & Hcur1 & _).
  destruct (prepared_inv cuda_is_available randperm model _ _ _ _ _ _ _ _ Hload)
    as [Hpool Hinv2].
  destruct (timing_run model (prepared_model args dev) datas w1 Hpool (depth + 4)%Z
              timeit_runs timer_reading select_unit args n_atom _ Hinv2)
    as (warm & meas & w' & Hrun & Hlog & Hlenw & Hlenm & Hinv' & _).
  cbn [log] in Hlog. rewrite <- app_assoc in Hlog.
  exists warm, meas, w'. split_and!; [|done..|].
  - rewrite (main_after_preparer _ _ _ _ _ _ _ _ Hload Hn).
    rewrite run_bind. unfold warmup_depth, config_getitem. rewrite Hdepth.
    run. by rewrite Hprof.
  - intros i c Hi.
    destruct Hinv' as (_ & _ & (evs & Hlog' & _ & Hcalls & _) & _).
    rewrite Hlog in Hlog'. apply app_inv_head in Hlog'. subst evs.
    destruct (Hcalls (length warm + i) c) as (Hm & Hframe & _).
    { rewrite !calls_app, !calls_ModelCall, calls_metrics_events.
      replace (calls (preparer_events args dev)) with (@nil call)
        by (unfold preparer_events; by destruct (arg_no_compile args)).
      cbn. rewrite app_nil_r. rewrite lookup_app_r by lia.
      by replace (length warm + i - length warm) with i by lia. }
    split; [done|]. by rewrite Hcur1, Hlenw in Hframe.
Qed.

Lemma metrics_result_ok args n_atom :
  metrics_result timer_reading select_unit args n_atom = Ok tt
  ↔ ∃ t, timer_reading = Ok t ∧ select_unit t = Ok tt ∧ n_atom ≠ 0
       ∧ select_unit (t / float_of_nat n_atom)%float = Ok tt
       ∧ (t =? 0)%float = false.
Proof.
  unfold metrics_result, per_atom_time, ns_day. split.
  - destruct timer_reading as [t|e]; [|done].
    destruct (select_unit t) as [[]|] eqn:Hu; [|done].
    case_bool_decide as HA; [done|].
    destruct (select_unit (t / float_of_nat n_atom)%float) as [[]|] eqn:Hu'; [|done].
    destruct (t =? 0)%float eqn:Ht; [done|]. intros _. by exists t.
  - intros (t & -> & -> & HA & Hu' & Ht).
    rewrite bool_decide_false by done. by rewrite Hu', Ht.
Qed.

Lemma metrics_reading_raises args n_atom e :
  timer_reading = Raise e →
  metrics_result timer_reading select_unit args n_atom = Raise e
  ∧ metrics_events timer_reading select_unit args n_atom = [Printed MsgResults].
Proof. unfold metrics_result, metrics_events. by intros ->. Qed.

Lemma metrics_no_atoms args t :
  timer_reading = Ok t → select_unit t = Ok tt →
  metrics_result timer_reading select_unit args 0 = Raise ZeroDivisionError
  ∧ metrics_events timer_reading select_unit args 0
    = [Printed MsgResults; Printed (MsgAverageCall t); Printed MsgLinearScaling].
Proof. unfold metrics_result, metrics_events. by intros -> ->. Qed.

(** X11.  A timing run that got past the sampler ends normally exactly
    when every step of the metrics succeeds: line 216 reads a time, a
    unit is found for it and for the time per atom, there is at least
    one atom, and the time is not zero.  An exception raised by line 216
    ends the run with that exception, after all warmup and measured
    calls were made and the results heading printed, before the average
    call time; frames without atoms end it with [ZeroDivisionError]
    after the average call time. *)
Theorem timing_run_outcome args config dataset w dev datas n_atom w1 depth :
  run_load args config dataset w = (Ok (dev, datas, n_atom), w1) →
  arg_profile args = None →
  arg_n args ≠ 0%Z →
  config !! "_jit_bailout_depth" = Some depth →
  ((run_main args config dataset w).1 = Ok tt
   ↔ ∃ t, timer_reading = Ok t ∧ select_unit t = Ok tt ∧ n_atom ≠ 0
        ∧ select_unit (t / float_of_nat n_atom)%float = Ok tt
        ∧ (t =? 0)%float = false)
  ∧ ∃ evs,
      length (calls evs) = Z.to_nat (depth + 4) + timeit_runs (arg_n args)
      ∧ (∀ e, timer_reading = Raise e →
           (run_main args config dataset w).1 = Raise e
           ∧ log (run_main args config dataset w).2
             = log w1 ++ preparer_events args dev ++ evs
               ++ [TimerDone; Printed MsgResults])
      ∧ (∀ t, timer_reading = Ok t → select_unit t = Ok tt → n_atom = 0 →
           (run_main args config dataset w).1 = Raise ZeroDivisionError
           ∧ log (run_main args config dataset w).2
             = log w1 ++ preparer_events args dev ++ evs
               ++ [TimerDone; Printed MsgResults; Printed (MsgAverageCall t);
                   Printed MsgLinearScaling]).
Proof.
  intros Hload Hprof Hn Hdepth.
  destruct (prepared_inv cuda_is_available randperm model _ _ _ _ _ _ _ _ Hload)
    as [Hpool Hinv2].
  destruct (timing_run model (prepared_model args dev) datas w1 Hpool (depth + 4)%Z
              timeit_runs timer_reading select_unit args n_atom _ Hinv2)
    as (warm & meas & w' & Hrun & Hlog & Hlenw & Hlenm & _).
  cbn [log] in Hlog.
  rewrite (main_after_preparer _ _ _ _ _ _ _ _ Hload Hn).
  rewrite run_bind. unfold warmup_depth, config_getitem. rewrite Hdepth.
  run. rewrite Hprof, Hrun. cbn [fst snd]. split; [apply metrics_result_ok|].
  exists ([Printed MsgWarmup] ++ (ModelCall <$> warm)
          ++ [Printed (MsgWarmupTime (depth + 4)); Printed MsgStarting;
              TimerTimeit (arg_n args)]
          ++ (ModelCall <$> meas)).
  split_and!.
  - rewrite !calls_app, !calls_ModelCall. cbn. rewrite ?app_nil_r, length_app. lia.
  - intros e He. destruct (metrics_reading_raises args n_atom e He) as [-> Hev].
    split; [done|]. rewrite Hlog, Hev, <- !app_assoc. reflexivity.
  - intros t Ht Hu ->. destruct (metrics_no_atoms args t Ht Hu) as [-> Hev].
    split; [done|]. rewrite Hlog, Hev, <- !app_assoc. reflexivity.
Qed.
End Coverage.

(** * The theorems at work on the concrete setting *)

Lemma zero_trials_quit_witness :
  arg_n (with_n 0 example_args) = 0%Z
  ∧ ∃ evs,
      log (example_main scratch_model (with_n 0 example_args) example_config
             uniform_dataset empty_world).2 = log empty_world ++ evs
      ∧ forallb is_diagnostic evs = true.
Proof.
  split; [reflexivity|].
  exact (proj1 (zero_trials_quit false flip_randperm scratch_model
              example_timeit_runs example_reading example_select_unit
                  (with_n 0 example_args) example_config uniform_dataset empty_world eq_refl)).
Defined.

Lemma pool_copies_are_shallow_witness :
  example_sampled example_args uniform_dataset
    = (Ok ("cpu", [0; 1], 2), (example_sampled example_args uniform_dataset).2)
  ∧ ∃ evs,
      log (example_main scratch_model example_args example_config uniform_dataset
             empty_world).2
      = log (example_sampled example_args uniform_dataset).2 ++ evs.
Proof.
  assert (example_sampled example_args uniform_dataset
          = (Ok ("cpu", [0; 1], 2), (example_sampled example_args uniform_dataset).2))
    as Hload by (vm_compute; reflexivity).
  split; [exact Hload|].
  destruct (pool_copies_are_shallow false flip_randperm scratch_model
              example_timeit_runs example_reading example_select_unit
              _ _ _ _ _ _ _ _ Hload) as (frames & evs & _ & Hlog & _).
  exists evs. exact Hlog.
Defined.

Lemma compiled_path_two_round_trips_witness :
  arg_no_compile example_args = false
  ∧ (model_preparer example_args "cpu" empty_world).1
    = Ok (Loaded (Frozen (Loaded (Deployed (Scripted FromConfig)) "cpu")) "cpu").
Proof.
  split; [reflexivity|].
  rewrite (proj1 (compiled_path_two_round_trips false flip_randperm scratch_model
                    example_timeit_runs example_reading example_select_unit
                    example_args "cpu" empty_world eq_refl)).
  reflexivity.
Defined.

Lemma tracing_session_witness :
  arg_profile tracing_args = Some "trace.json"
  ∧ (0 < arg_n tracing_args)%Z
  ∧ example_config !! "_jit_bailout_depth" = Some 2%Z
  ∧ ∃ evs w',
      example_main scratch_model tracing_args example_config uniform_dataset empty_world
        = (Ok tt, w')
      ∧ log w' = log (example_sampled tracing_args uniform_dataset).2
                 ++ preparer_events tracing_args "cpu" ++ evs
      ∧ Z.of_nat (length (calls evs)) = 10%Z.
Proof.
  assert (example_sampled tracing_args uniform_dataset
          = (Ok ("cpu", [0], 2), (example_sampled tracing_args uniform_dataset).2))
    as Hload by (vm_compute; reflexivity).
  split_and!; [reflexivity|reflexivity|vm_compute; reflexivity|].
  destruct (tracing_session false flip_randperm scratch_model
              example_timeit_runs example_reading example_select_unit
              tracing_args example_config uniform_dataset empty_world
              "cpu" [0] 2 _ "trace.json" 2%Z Hload)
    as (evs & w' & Hrun & Hlog & _ & Hlen);
    [reflexivity|reflexivity|vm_compute; reflexivity|lia|].
  exists evs, w'. split_and!; [exact Hrun|exact Hlog|exact Hlen].
Defined.

Lemma warmup_phase_witness :
  arg_profile example_args = None
  ∧ arg_n example_args ≠ 0%Z
  ∧ example_config !! "_jit_bailout_depth" = Some 2%Z
  ∧ ∃ (warm meas : list call) w',
      example_main scratch_model example_args example_config uniform_dataset empty_world
        = (metrics_result example_reading example_select_unit example_args 2, w')
      ∧ Z.of_nat (length warm) = 6%Z
      ∧ length meas = example_timeit_runs 3.
Proof.
  assert (example_sampled example_args uniform_dataset
          = (Ok ("cpu", [0; 1], 2), (example_sampled example_args uniform_dataset).2))
    as Hload by (vm_compute; reflexivity).
  split_and!; [reflexivity|discriminate|vm_compute; reflexivity|].
  destruct (warmup_phase false flip_randperm scratch_model
              example_timeit_runs example_reading example_select_unit
              example_args example_config uniform_dataset empty_world
              "cpu" [0; 1] 2 _ 2%Z Hload)
    as (_ & warm & meas & w' & Hrun & _ & Hlen & _ & Hmeas);
    [reflexivity|discriminate|vm_compute; reflexivity|lia|].
  exists warm, meas, w'. split_and!; [exact Hrun|exact Hlen|exact Hmeas].
Defined.

Lemma variable_atoms_rejected_witness :
  mapM (mixed_dataset !!.)
       (sampled_indices flip_randperm example_config (length mixed_dataset)
          (arg_n_data example_args))
    = Some [frame3; frame2 0]
  ∧ (example_main scratch_model example_args example_config mixed_dataset empty_world).1
    = Raise (NotImplementedError variable_atoms_msg).
Proof.
  assert (mapM (mixed_dataset !!.)
            (sampled_indices flip_randperm example_config (length mixed_dataset)
               (arg_n_data example_args))
          = Some [frame3; frame2 0]) as Hidx by (vm_compute; reflexivity).
  split; [exact Hidx|].
  apply (variable_atoms_rejected false flip_randperm scratch_model
              example_timeit_runs example_reading example_select_unit
           example_args example_config mixed_dataset empty_world frame3 [frame2 0] Hidx).
  apply Exists_cons_hd. cbn. lia.
Defined.

Lemma sample_count_is_clamped_witness :
  (0 ≤ arg_n_data (with_n_data 5 example_args))%Z
  ∧ length (sampled_indices flip_randperm example_config (length uniform_dataset)
              (arg_n_data (with_n_data 5 example_args)))
    = 5 `min` 2.
Proof.
  split; [cbn; lia|].
  apply (sample_count_is_clamped flip_randperm (with_n_data 5 example_args) example_config
           uniform_dataset empty_world).
  - vm_compute. apply perm_swap.
  - cbn. lia.
Defined.

Lemma frame_selection_deterministic_witness :
  dataset_seed example_config = dataset_seed other_config
  ∧ arg_n_data example_args = arg_n_data (with_n 0 example_args)
  ∧ sampler_outcome (frame_sampler flip_randperm example_args example_config
                       uniform_dataset empty_world)
    = sampler_outcome (frame_sampler flip_randperm (with_n 0 example_args) other_config
                         uniform_dataset (example_sampled example_args uniform_dataset).2).
Proof.
  split_and!; [vm_compute; reflexivity|reflexivity|].
  apply (frame_selection_deterministic flip_randperm example_args (with_n 0 example_args)
           example_config other_config uniform_dataset).
  - vm_compute. reflexivity.
  - reflexivity.
Defined.


(** * Where the specification and the script part ways *)

(** C1, as stated, fails: asked for 5 frames of a dataset of 2, the sampler
    returns both frames, and the run goes on to build the model and ends
    normally. *)
Lemma oversized_sample_is_not_rejected :
  (Z.of_nat (length uniform_dataset) < arg_n_data (with_n_data 5 example_args))%Z
  ∧ (frame_sampler flip_randperm (with_n_data 5 example_args) example_config
       uniform_dataset empty_world).1 = Ok ([0; 1], 2)
  ∧ log (example_main scratch_model (with_n_data 5 example_args) example_config
           uniform_dataset empty_world).2 !! 15 = Some ModelFromConfig
  ∧ (example_main scratch_model (with_n_data 5 example_args) example_config
       uniform_dataset empty_world).1 = Ok tt.
Proof. split_and!; [cbn; lia|vm_compute; reflexivity..]. Qed.

(** C2, as stated, fails: the pool has one frame, the model writes into
    the position tensor it is given, and the second retrieval of the frame
    reads what the first call wrote. *)
Lemma inplace_write_reaches_later_retrieval :
  c_frame <$> calls (log (example_main inplace_model tracing_args example_config
                            uniform_dataset empty_world).2) !! 0 = Some 0
  ∧ c_frame <$> calls (log (example_main inplace_model tracing_args example_config
                              uniform_dataset empty_world).2) !! 1 = Some 0
  ∧ calls (log (example_main inplace_model tracing_args example_config
                  uniform_dataset empty_world).2) !! 0 ≫= (λ c, c_seen c !! "pos")
    = Some [[10; 0; 0]; [11; 0; 0]]%Z
  ∧ calls (log (example_main inplace_model tracing_args example_config
                  uniform_dataset empty_world).2) !! 1 ≫= (λ c, c_seen c !! "pos")
    = Some [[7; 7; 7]; [7; 7; 7]]%Z.
Proof. split_and!; vm_compute; reflexivity. Qed.


(** * The further properties at work on the concrete setting *)

Lemma sample_has_no_repeats_witness :
  flip_randperm (dataset_seed example_config) (length uniform_dataset)
    ≡ₚ seq 0 (length uniform_dataset)
  ∧ NoDup (sampled_indices flip_randperm example_config (length uniform_dataset)
             (arg_n_data (with_n_data 5 example_args))).
Proof.
  assert (flip_randperm (dataset_seed example_config) (length uniform_dataset)
            ≡ₚ seq 0 (length uniform_dataset)) as Hperm
    by (vm_compute; apply perm_swap).
  split; [exact Hperm|].
  exact (proj1 (sample_has_no_repeats flip_randperm (with_n_data 5 example_args)
                  example_config uniform_dataset Hperm)).
Defined.


Lemma empty_sample_is_index_error_witness :
  sampled_indices flip_randperm example_config (length uniform_dataset)
    (arg_n_data (with_n_data 0 example_args)) = []
  ∧ (example_main scratch_model (with_n_data 0 example_args) example_config
       uniform_dataset empty_world).1 = Raise IndexError.
Proof.
  assert (sampled_indices flip_randperm example_config (length uniform_dataset)
            (arg_n_data (with_n_data 0 example_args)) = []) as Hidx
    by (vm_compute; reflexivity).
  split; [exact Hidx|]. unfold example_main.
  rewrite (empty_sample_is_index_error false flip_randperm scratch_model
             example_timeit_runs example_reading example_select_unit
             (with_n_data 0 example_args) example_config
             uniform_dataset empty_world Hidx).
  reflexivity.
Defined.

Lemma dataset_statistics_witness :
  mapM (uniform_dataset !!.)
       (sampled_indices flip_randperm example_config (length uniform_dataset)
          (arg_n_data example_args))
    = Some [frame2 10; frame2 0]
  ∧ uniform_atoms (length (ad_pos (frame2 10))) [frame2 10; frame2 0] = true
  ∧ forallb edges_in_range [frame2 10; frame2 0] = true
  ∧ ∃ datas w1,
      example_sampled example_args uniform_dataset = (Ok ("cpu", datas, 2), w1)
      ∧ log w1 = log empty_world ++ startup_events false example_args
                 ++ statistics_events example_args uniform_dataset
                      [frame2 10; frame2 0] 2.
Proof.
  assert (mapM (uniform_dataset !!.)
            (sampled_indices flip_randperm example_config (length uniform_dataset)
               (arg_n_data example_args))
          = Some [frame2 10; frame2 0]) as Hidx by (vm_compute; reflexivity).
  assert (uniform_atoms (length (ad_pos (frame2 10))) [frame2 10; frame2 0] = true)
    as Hu by (vm_compute; reflexivity).
  assert (forallb edges_in_range [frame2 10; frame2 0] = true)
    as Hin by (vm_compute; reflexivity).
  split_and!; [exact Hidx|exact Hu|exact Hin|].
  destruct (dataset_statistics false flip_randperm example_args example_config
              uniform_dataset empty_world [frame2 10; frame2 0] (frame2 10)
              Hidx eq_refl Hu Hin)
    as (datas & w1 & Hrun & _ & Hlog).
  exists datas, w1. split; [exact Hrun|exact Hlog].
Defined.

Lemma uncompiled_path_moves_to_device_witness :
  arg_no_compile eager_args = true
  ∧ (model_preparer eager_args "cpu" empty_world).1 = Ok (OnDevice FromConfig "cpu").
Proof.
  split; [reflexivity|].
  rewrite (proj1 (uncompiled_path_moves_to_device false flip_randperm scratch_model
                    example_timeit_runs example_reading example_select_unit
                    eager_args "cpu" empty_world eq_refl)).
  reflexivity.
Defined.

Lemma missing_bailout_depth_is_key_error_witness :
  arg_n example_args ≠ 0%Z
  ∧ bare_config !! "_jit_bailout_depth" = None
  ∧ (example_main scratch_model example_args bare_config uniform_dataset empty_world).1
    = Raise (KeyError "_jit_bailout_depth").
Proof.
  assert (load_and_sample false flip_randperm example_args bare_config uniform_dataset
            empty_world
          = (Ok ("cpu", [0; 1], 2),
             (load_and_sample false flip_randperm example_args bare_config uniform_dataset
                empty_world).2))
    as Hload by (vm_compute; reflexivity).
  assert (arg_n example_args ≠ 0%Z) as Hn by discriminate.
  assert (bare_config !! "_jit_bailout_depth" = None) as Hkey by (vm_compute; reflexivity).
  split_and!; [exact Hn|exact Hkey|]. unfold example_main.
  rewrite (proj1 (missing_bailout_depth_is_key_error false flip_randperm scratch_model
                    example_timeit_runs example_reading example_select_unit
                    example_args bare_config uniform_dataset
                    empty_world "cpu" [0; 1] 2 _ Hload Hn Hkey)).
  reflexivity.
Defined.

Lemma tracing_rejects_bad_schedule_witness :
  arg_profile (with_n (-1) tracing_args) = Some "trace.json"
  ∧ example_config !! "_jit_bailout_depth" = Some 2%Z
  ∧ (arg_n (with_n (-1) tracing_args) < 0)%Z
  ∧ (example_main scratch_model (with_n (-1) tracing_args) example_config
       uniform_dataset empty_world).1 = Raise AssertionError.
Proof.
  assert (example_sampled (with_n (-1) tracing_args) uniform_dataset
          = (Ok ("cpu", [0], 2), (example_sampled (with_n (-1) tracing_args) uniform_dataset).2))
    as Hload by (vm_compute; reflexivity).
  assert (example_config !! "_jit_bailout_depth" = Some 2%Z) as Hkey
    by (vm_compute; reflexivity).
  assert (arg_n (with_n (-1) tracing_args) < 0)%Z as Hneg by (cbn; lia).
  split_and!; [reflexivity|exact Hkey|exact Hneg|]. unfold example_main.
  rewrite (proj1 (tracing_rejects_bad_schedule false flip_randperm scratch_model
                    example_timeit_runs example_reading example_select_unit
                    (with_n (-1) tracing_args) example_config
                    uniform_dataset empty_world "cpu" [0] 2 _ "trace.json" 2%Z
                    Hload eq_refl Hkey (or_introl Hneg))).
  reflexivity.
Defined.

Lemma pool_is_cyclic_witness :
  example_sampled example_args uniform_dataset
    = (Ok ("cpu", [0; 1], 2), (example_sampled example_args uniform_dataset).2)
  ∧ ∃ evs,
      log (example_main scratch_model example_args example_config uniform_dataset
             empty_world).2
      = log (example_sampled example_args uniform_dataset).2 ++ evs
      ∧ ∀ i c c',
          calls evs !! i = Some c → calls evs !! (i + 2) = Some c' →
          c_frame c' = c_frame c.
Proof.
  assert (example_sampled example_args uniform_dataset
          = (Ok ("cpu", [0; 1], 2), (example_sampled example_args uniform_dataset).2))
    as Hload by (vm_compute; reflexivity).
  split; [exact Hload|].
  destruct (pool_is_cyclic false flip_randperm scratch_model
              example_timeit_runs example_reading example_select_unit
              example_args example_config uniform_dataset empty_world
              "cpu" [0; 1] 2 _ Hload) as (evs & Hlog & Hper).
  exists evs. split; [exact Hlog|].
  intros i c c' Hi Hi'. exact (proj1 (Hper i c c' Hi Hi')).
Defined.

Lemma timed_calls_continue_rotation_witness :
  arg_profile example_args = None
  ∧ arg_n example_args ≠ 0%Z
  ∧ example_config !! "_jit_bailout_depth" = Some 2%Z
  ∧ ∃ (warm meas : list call),
      length warm = 6
      ∧ length meas = example_timeit_runs 3
      ∧ ∀ i c, meas !! i = Some c → [0; 1] !! ((6 + i) mod 2) = Some (c_frame c).
Proof.
  assert (example_sampled example_args uniform_dataset
          = (Ok ("cpu", [0; 1], 2), (example_sampled example_args uniform_dataset).2))
    as Hload by (vm_compute; reflexivity).
  assert (arg_n example_args ≠ 0%Z) as Hn by discriminate.
  assert (example_config !! "_jit_bailout_depth" = Some 2%Z) as Hkey
    by (vm_compute; reflexivity).
  split_and!; [reflexivity|exact Hn|exact Hkey|].
  destruct (timed_calls_continue_rotation false flip_randperm scratch_model
              example_timeit_runs example_reading example_select_unit
              example_args example_config uniform_dataset
              empty_world "cpu" [0; 1] 2 _ 2%Z Hload eq_refl Hn Hkey)
    as (warm & meas & w' & _ & _ & Hlenw & Hlenm & Hrr).
  exists warm, meas. split_and!; [exact Hlenw|exact Hlenm|].
  intros i c Hi. exact (proj2 (Hrr i c Hi)).
Defined.

Lemma timing_run_outcome_witness :
  arg_profile example_args = None
  ∧ arg_n example_args ≠ 0%Z
  ∧ example_config !! "_jit_bailout_depth" = Some 2%Z
  ∧ (example_main scratch_model example_args example_config uniform_dataset
       empty_world).1 = Ok tt.
Proof.
  assert (example_sampled example_args uniform_dataset
          = (Ok ("cpu", [0; 1], 2), (example_sampled example_args uniform_dataset).2))
    as Hload by (vm_compute; reflexivity).
  assert (arg_n example_args ≠ 0%Z) as Hn by discriminate.
  assert (example_config !! "_jit_bailout_depth" = Some 2%Z) as Hkey
    by (vm_compute; reflexivity).
  assert (2 ≠ 0) as HA by lia.
  split_and!; [reflexivity|exact Hn|exact Hkey|].
  apply (proj2 (proj1 (timing_run_outcome false flip_randperm scratch_model
                         example_timeit_runs example_reading example_select_unit
                         example_args example_config uniform_dataset
                         empty_world "cpu" [0; 1] 2 _ 2%Z Hload eq_refl Hn Hkey))).
  exists 1%float. split_and!; [reflexivity|reflexivity|exact HA|reflexivity|reflexivity].
Defined.
